(** * DuckDuckGo search server: rate limiter, result extraction, formatting

    A shallow embedding of [search_server_duckduck_go.py] and the properties
    of its [RateLimiter] and [DuckDuckGoSearcher] classes.

    Conventions.
    - A Python [str] is a Rocq [string] holding its UTF-8 encoding, one
      [ascii] per byte.  [in], [startswith] and [split] on text agree with
      the same operations on the encodings.
    - A Python [int] is a [Z].
    - A [datetime] is a [Z] counting microseconds (the resolution of
      [datetime.now()]); a [timedelta] is a [Z] number of microseconds.
    - A call that may raise returns an [outcome]; code that also mutates
      the limiter or writes to the logging context runs in the monad [M]. *)

From Stdlib Require Import ZArith NArith List String Ascii Bool Lia.
From Stdlib Require Import Numbers.DecimalString.
From Stdlib Require Import Sorting.Sorted.
Import ListNotations.

Local Open Scope string_scope.
Local Open Scope Z_scope.

(** ** Python built-ins used by the program *)

Module Py.

(** Instances of [Exception] that the program can meet.  In [httpx],
    [TimeoutException] is a subclass of [HTTPError]; [HTTPError] here stands
    for the instances of [httpx.HTTPError] that are not timeouts
    (connection errors, [HTTPStatusError] from [raise_for_status]).
    Signals that are not instances of [Exception] ([KeyboardInterrupt],
    [SystemExit], [asyncio.CancelledError]) are not failures of a call and
    are left out. *)
Inductive exc : Type :=
| TimeoutException (msg : string)
| HTTPError (msg : string)
| IndexError (msg : string)
| OtherException (msg : string).

(** [isinstance(e, httpx.TimeoutException)] *)
Definition is_TimeoutException (e : exc) : bool :=
  match e with TimeoutException _ => true | _ => false end.

(** [isinstance(e, httpx.HTTPError)] *)
Definition is_HTTPError (e : exc) : bool :=
  match e with TimeoutException _ | HTTPError _ => true | _ => false end.

(** [str(e)] *)
Definition exc_str (e : exc) : string :=
  match e with
  | TimeoutException m | HTTPError m | IndexError m | OtherException m => m
  end.

Inductive outcome (A : Type) : Type :=
| Return (a : A)
| Raise (e : exc).
Arguments Return {A} a.
Arguments Raise {A} e.

Definition obind {A B} (o : outcome A) (k : A -> outcome B) : outcome B :=
  match o with
  | Return a => k a
  | Raise e => Raise e
  end.

(** [len(l)] *)
Definition len {A} (l : list A) : Z := Z.of_nat (List.length l).

(** [l.append(x)] *)
Definition append {A} (l : list A) (x : A) : list A := (l ++ [x])%list.

(** [l[i]] for a non-negative literal index [i] *)
Definition getitem {A} (l : list A) (i : nat) : outcome A :=
  match nth_error l i with
  | Some a => Return a
  | None => Raise (IndexError "list index out of range")
  end.

(** [str(n)] for an [int] *)
Definition str_of_int (n : Z) : string :=
  NilZero.string_of_int (Z.to_int n).

(** [s.startswith(p)] *)
Fixpoint startswith (s p : string) {struct p} : bool :=
  match p with
  | EmptyString => true
  | String b p' =>
      match s with
      | EmptyString => false
      | String a s' => Ascii.eqb a b && startswith s' p'
      end
  end.

(** [sub in s] *)
Fixpoint contains (sub s : string) : bool :=
  startswith s sub ||
  match s with
  | EmptyString => false
  | String _ s' => contains sub s'
  end.

(** [s.split(sep)] for a non-empty [sep] (Python raises [ValueError] on an
    empty one; the program only passes literals).  The scan goes left to
    right; [skip] counts the characters of a separator just matched that
    are still to be passed over, [cur] is the piece being collected. *)
Fixpoint split_from (sep : string) (skip : nat) (cur s : string) : list string :=
  match s with
  | EmptyString => [cur]
  | String c s' =>
      match skip with
      | S k => split_from sep k cur s'
      | O =>
          if startswith s sep
          then cur :: split_from sep (String.length sep - 1) "" s'
          else split_from sep 0 (cur ++ String c "") s'
      end
  end.

Definition split (s sep : string) : list string := split_from sep 0 "" s.

(** [sep.join(l)] *)
Fixpoint join (sep : string) (l : list string) : string :=
  match l with
  | [] => ""
  | [x] => x
  | x :: rest => x ++ sep ++ join sep rest
  end.

End Py.

(** ** [urllib.parse.unquote] *)

Module Urllib.

Definition byte (c : ascii) : N := N_of_ascii c.

Definition hexdig (c : ascii) : option N :=
  let n := byte c in
  if (48 <=? n)%N && (n <=? 57)%N then Some (n - 48)%N
  else if (65 <=? n)%N && (n <=? 70)%N then Some (n - 55)%N
  else if (97 <=? n)%N && (n <=? 102)%N then Some (n - 87)%N
  else None.

(** [unquote_to_bytes]: every [%] followed by two hexadecimal digits
    becomes the byte they denote; any other [%] stays. *)
Fixpoint unquote_to_bytes (s : string) : string :=
  match s with
  | EmptyString => EmptyString
  | String c s' =>
      if Ascii.eqb c "%" then
        match s' with
        | String h (String l s'') =>
            match hexdig h, hexdig l with
            | Some a, Some b =>
                String (ascii_of_N (16 * a + b)) (unquote_to_bytes s'')
            | _, _ => String c (unquote_to_bytes s')
            end
        | _ => String c (unquote_to_bytes s')
        end
      else String c (unquote_to_bytes s')
  end.

(** U+FFFD REPLACEMENT CHARACTER, in UTF-8 *)
Definition replacement : string :=
  String (ascii_of_N 239) (String (ascii_of_N 191) (String (ascii_of_N 189) "")).

Definition is_continuation (c : ascii) : bool :=
  (128 <=? byte c)%N && (byte c <? 192)%N.

(** second byte of a three-byte sequence led by [b1]: no overlong form
    (E0 80..9F) and no surrogate (ED A0..BF) *)
Definition second_of_3 (b1 : N) (c2 : ascii) : bool :=
  is_continuation c2 &&
  negb (if (byte c2 <? 160)%N then (b1 =? 224)%N else (b1 =? 237)%N).

(** second byte of a four-byte sequence led by [b1]: no overlong form
    (F0 80..8F) and nothing above U+10FFFF (F4 90..BF) *)
Definition second_of_4 (b1 : N) (c2 : ascii) : bool :=
  is_continuation c2 &&
  negb (if (byte c2 <? 144)%N then (b1 =? 240)%N else (b1 =? 244)%N).

(** [bytes.decode("utf-8", "replace")], the result again in UTF-8: a
    well-formed sequence is kept, every maximal ill-formed prefix of a
    sequence becomes one U+FFFD. *)
Fixpoint decode_replace (s : string) : string :=
  match s with
  | EmptyString => EmptyString
  | String c1 t1 =>
      let b1 := byte c1 in
      if (b1 <? 128)%N then String c1 (decode_replace t1)
      else if (b1 <? 194)%N then replacement ++ decode_replace t1
      else if (b1 <? 224)%N then
        match t1 with
        | String c2 t2 =>
            if is_continuation c2
            then String c1 (String c2 (decode_replace t2))
            else replacement ++ decode_replace t1
        | EmptyString => replacement
        end
      else if (b1 <? 240)%N then
        match t1 with
        | String c2 t2 =>
            if second_of_3 b1 c2 then
              match t2 with
              | String c3 t3 =>
                  if is_continuation c3
                  then String c1 (String c2 (String c3 (decode_replace t3)))
                  else replacement ++ decode_replace t2
              | EmptyString => replacement
              end
            else replacement ++ decode_replace t1
        | EmptyString => replacement
        end
      else if (b1 <? 245)%N then
        match t1 with
        | String c2 t2 =>
            if second_of_4 b1 c2 then
              match t2 with
              | String c3 t3 =>
                  if is_continuation c3 then
                    match t3 with
                    | String c4 t4 =>
                        if is_continuation c4
                        then String c1 (String c2 (String c3
                               (String c4 (decode_replace t4))))
                        else replacement ++ decode_replace t3
                    | EmptyString => replacement
                    end
                  else replacement ++ decode_replace t2
              | EmptyString => replacement
              end
            else replacement ++ decode_replace t1
        | EmptyString => replacement
        end
      else replacement ++ decode_replace t1
  end.

(** One maximal run of ASCII characters is percent-decoded and then read
    as UTF-8; characters outside ASCII pass through. *)
Definition unquote_run (run : string) : string :=
  decode_replace (unquote_to_bytes run).

Fixpoint unquote_parts (run s : string) : string :=
  match s with
  | EmptyString => unquote_run run
  | String c s' =>
      if (byte c <? 128)%N
      then unquote_parts (run ++ String c "") s'
      else unquote_run run ++ String c (unquote_parts "" s')
  end.

(** [urllib.parse.unquote(s)] with its defaults ([utf-8], [replace]) *)
Definition unquote (s : string) : string :=
  if Py.contains "%" s then unquote_parts "" s else s.

End Urllib.

Import Py.

(** ** [RateLimiter] *)

Module Limiter.

(** [timedelta(minutes=1)], in microseconds *)
Definition minute : Z := 60000000.

Record RateLimiter : Type := mkRateLimiter {
  requests_per_minute : Z;
  requests : list Z
}.

(** [RateLimiter.__init__] *)
Definition init (requests_per_minute : Z) : RateLimiter :=
  mkRateLimiter requests_per_minute [].

(** [RateLimiter.acquire], entered when the clock reads [now].

    The first component is [Return slept], with [slept] the time spent in
    [asyncio.sleep] (0 when the call does not sleep), or the exception
    raised; the second is the limiter as the call leaves it.  The wait
    [60 - (now - self.requests[0]).total_seconds()] is kept in microseconds,
    which decides [wait_time > 0] exactly as the float does. *)
Definition acquire (now : Z) (self : RateLimiter) : outcome Z * RateLimiter :=
  let self :=
    mkRateLimiter (requests_per_minute self)
      (filter (fun req => now - req <? minute) (requests self)) in
  let append_now (slept : Z) :=
    (Return slept,
     mkRateLimiter (requests_per_minute self) (append (requests self) now)) in
  if len (requests self) >=? requests_per_minute self then
    match getitem (requests self) 0 with
    | Raise e => (Raise e, self)
    | Return oldest =>
        let wait_time := minute - (now - oldest) in
        if wait_time >? 0 then append_now wait_time else append_now 0
    end
  else append_now 0.

(** A caller that uses one limiter for a series of calls, one after the
    other: call number [i] enters [acquire] [gaps_i] microseconds after the
    previous call returned (the first one [gaps_0] after [clock]).  The
    result lists the instants at which [acquire] returned, that is, the
    instants of authorization; a call that raises authorizes nothing. *)
Fixpoint authorizations (self : RateLimiter) (clock : Z) (gaps : list Z) : list Z :=
  match gaps with
  | [] => []
  | gap :: gaps' =>
      let now := clock + gap in
      match acquire now self with
      | (Return slept, self') =>
          (now + slept) :: authorizations self' (now + slept) gaps'
      | (Raise _, self') => authorizations self' now gaps'
      end
  end.

(** The limiter after the same series of calls. *)
Fixpoint after_calls (self : RateLimiter) (clock : Z) (gaps : list Z) : RateLimiter :=
  match gaps with
  | [] => self
  | gap :: gaps' =>
      let now := clock + gap in
      match acquire now self with
      | (Return slept, self') => after_calls self' (now + slept) gaps'
      | (Raise _, self') => after_calls self' now gaps'
      end
  end.

(** Number of instants of [ts] in the trailing interval [(t - minute, t]]. *)
Definition within_window (t : Z) (ts : list Z) : Z :=
  len (filter (fun a => (t - minute <? a) && (a <=? t)) ts).

End Limiter.

(** ** Collaborators of the searcher: the page, the network, the log *)

Module World.

(** What the program reads from the [bs4] elements of a page.  An anchor
    is seen through [get_text(strip=True)] and its [href] attribute, a
    [.result__title] element through [find("a")], a [.result] element
    through [select_one(".result__title")] and the text of
    [select_one(".result__snippet")]; [None] is an absent element or
    attribute. *)
Record Anchor : Type := mkAnchor {
  get_text : string;
  href : option string
}.

Record TitleElem : Type := mkTitleElem {
  find_a : option Anchor
}.

Record ResultElem : Type := mkResultElem {
  result__title : option TitleElem;
  result__snippet : option string
}.

(** A parsed page: its truth value and [soup.select(".result")], in
    document order. *)
Record Soup : Type := mkSoup {
  truthy : bool;
  select_result : list ResultElem
}.

Record Request : Type := mkRequest {
  url : string;
  data : list (string * string);
  headers : list (string * string);
  timeout : Z
}.

Record Response : Type := mkResponse {
  raise_for_status : outcome unit;
  text : string
}.

(** The surroundings of one call of [search]: the clock when the call
    enters the limiter, the answer of the network to a request, the HTML
    parser, and the logging context [ctx] that the call is given, as it
    answers [ctx.info] and [ctx.error]. *)
Record World : Type := mkWorld {
  now : Z;
  post : Request -> outcome Response;
  BeautifulSoup : string -> outcome Soup;
  info_answer : string -> outcome unit;
  error_answer : string -> outcome unit
}.

Inductive channel : Type := CtxInfo | CtxError | Stderr.

(** The state a call works on: the searcher's limiter and what has been
    written to the logging context and to [sys.stderr] so far. *)
Record State : Type := mkState {
  rate_limiter : Limiter.RateLimiter;
  written : list (channel * string)
}.

(** State and exceptions: a computation leaves the state it reached also
    when it raises. *)
Definition M (A : Type) : Type := State -> outcome A * State.

Definition ret {A} (a : A) : M A := fun st => (Return a, st).

Definition bind {A B} (m : M A) (k : A -> M B) : M B :=
  fun st =>
    match m st with
    | (Return a, st') => k a st'
    | (Raise e, st') => (Raise e, st')
    end.

Definition lift {A} (o : outcome A) : M A := fun st => (o, st).

(** [try: body  except Exception as e: handler(e)] *)
Definition try_except {A} (body : M A) (handler : exc -> M A) : M A :=
  fun st =>
    match body st with
    | (Return a, st') => (Return a, st')
    | (Raise e, st') => handler e st'
    end.

(** A line is sent to the channel [c], which gives [answer]: the line is
    written when the channel takes it, and the exception is raised, with
    nothing written, when it does not. *)
Definition write (c : channel) (msg : string) (answer : outcome unit) : M unit :=
  fun st =>
    match answer with
    | Return _ =>
        (Return tt, mkState (rate_limiter st) (append (written st) (c, msg)))
    | Raise e => (Raise e, st)
    end.

(** [await ctx.info(msg)], [await ctx.error(msg)] *)
Definition ctx_info (w : World) (msg : string) : M unit :=
  write CtxInfo msg (info_answer w msg).
Definition ctx_error (w : World) (msg : string) : M unit :=
  write CtxError msg (error_answer w msg).

(** [traceback.print_exc(file=sys.stderr)] while handling [e]: a write
    to the standard error of the process itself *)
Definition print_exc (e : exc) : M unit := write Stderr (exc_str e) (Return tt).

(** [await self.rate_limiter.acquire()] *)
Definition rate_limiter_acquire (now : Z) : M Z :=
  fun st =>
    let (r, rl) := Limiter.acquire now (rate_limiter st) in
    (r, mkState rl (written st)).

End World.

Declare Scope py_scope.
Delimit Scope py_scope with py.
Notation "x <- m ;; k" := (World.bind m (fun x => k))
  (at level 61, m at next level, right associativity) : py_scope.
Notation "m ;; k" := (World.bind m (fun _ => k))
  (at level 61, right associativity) : py_scope.

(** ** [DuckDuckGoSearcher] *)

Module DuckDuckGoSearcher.

Import World.

Record SearchResult : Type := mkSearchResult {
  title : string;
  link : string;
  snippet : string;
  position : Z
}.

Definition LF : string := String (ascii_of_nat 10) "".

Definition BASE_URL : string := "https://html.duckduckgo.com/html".

Definition HEADERS : list (string * string) :=
  [("User-Agent",
    "Mozilla/5.0 (Windows NT 10.0; Win64; x64) AppleWebKit/537.36 (KHTML, like Gecko) Chrome/91.0.4472.124 Safari/537.36")].

(** [format_results_for_llm]: [output] grows by four items per result and
    is joined with line feeds at the end. *)
Definition format_results_for_llm (results : list SearchResult) : string :=
  match results with
  | [] =>
      "No results were found for your search query. This could be due to DuckDuckGo's bot detection or the query returned no matches. Please try rephrasing your search or try again in a few minutes."
  | _ =>
      let output : list string := [] in
      let output :=
        append output ("Found " ++ str_of_int (len results) ++ " search results:" ++ LF) in
      let output :=
        fold_left
          (fun output result =>
             let output :=
               append output (str_of_int (position result) ++ ". " ++ title result) in
             let output := append output ("   URL: " ++ link result) in
             let output := append output ("   Summary: " ++ snippet result) in
             append output "")
          results output in
      join LF output
  end.

(** The body of the loop of [search] for one [.result] element, up to the
    construction of the [SearchResult]: [Return None] is [continue],
    [Return (Some (title, link, snippet))] goes on to the append. *)
Definition extract (result : ResultElem) : outcome (option (string * string * string)) :=
  match result__title result with
  | None => Return None
  | Some title_elem =>
      match find_a title_elem with
      | None => Return None
      | Some link_elem =>
          let title := get_text link_elem in
          let link := match href link_elem with Some h => h | None => "" end in
          if contains "y.js" link then Return None
          else
            obind
              (if startswith link "//duckduckgo.com/l/?uddg="
               then
                 obind (getitem (split link "uddg=") 1) (fun after =>
                 obind (getitem (split after "&") 0) (fun value =>
                 Return (Urllib.unquote value)))
               else Return link)
              (fun link =>
                 let snippet :=
                   match result__snippet result with Some s => s | None => "" end in
                 Return (Some (title, link, snippet)))
      end
  end.

(** The loop [for result in soup.select(".result")] with its accumulator
    [results]; the [break] ends the recursion. *)
Fixpoint scan (max_results : Z) (elems : list ResultElem)
    (results : list SearchResult) : outcome (list SearchResult) :=
  match elems with
  | [] => Return results
  | result :: elems' =>
      match extract result with
      | Raise e => Raise e
      | Return None => scan max_results elems' results
      | Return (Some (title, link, snippet)) =>
          let results :=
            append results (mkSearchResult title link snippet (len results + 1)) in
          if len results >=? max_results then Return results
          else scan max_results elems' results
      end
  end.

Local Open Scope py_scope.

(** [DuckDuckGoSearcher.search] *)
Definition search (w : World) (query : string) (max_results : Z) : M (list SearchResult) :=
  try_except
    (rate_limiter_acquire (now w) ;;
     let data := [("q", query); ("b", ""); ("kl", "")] in
     ctx_info w ("Searching DuckDuckGo for: " ++ query) ;;
     response <- lift (post w (mkRequest BASE_URL data HEADERS 30)) ;;
     lift (raise_for_status response) ;;
     soup <- lift (BeautifulSoup w (text response)) ;;
     if negb (truthy soup) then
       ctx_error w "Failed to parse HTML response" ;;
       ret []
     else
       results <- lift (scan max_results (select_result soup) []) ;;
       ctx_info w ("Successfully found " ++ str_of_int (len results) ++ " results") ;;
       ret results)
    (fun e =>
       if is_TimeoutException e then
         ctx_error w "Search request timed out" ;;
         ret []
       else if is_HTTPError e then
         ctx_error w ("HTTP error occurred: " ++ exc_str e) ;;
         ret []
       else
         ctx_error w ("Unexpected error during search: " ++ exc_str e) ;;
         print_exc e ;;
         ret []).

End DuckDuckGoSearcher.

(** ** The registered tool *)

Module Server.

Import World.
Local Open Scope py_scope.

(** The module-level [search], registered with [mcp.tool()] *)
Definition search (w : World) (query : string) (max_results : Z) : M string :=
  try_except
    (results <- DuckDuckGoSearcher.search w query max_results ;;
     ret (DuckDuckGoSearcher.format_results_for_llm results))
    (fun e =>
       print_exc e ;;
       ret ("An error occurred while searching: " ++ exc_str e)).

End Server.

(** * The Telegram bot ([mcp_search_bot.py]) *)

Module Bot.

(** What the bot takes from its platform: the character tables behind
    [str.isalnum] and [str.isspace], asked about a one-character [str],
    and [os.path.join]. *)
Record Platform : Type := mkPlatform {
  isalnum : string -> bool;
  isspace : string -> bool;
  path_join : string -> string -> string
}.

(** The characters of a [str]: in the UTF-8 encoding every character is
    one byte that is not a continuation byte, followed by its continuation
    bytes. *)
Fixpoint chars (s : string) : list string :=
  match s with
  | EmptyString => []
  | String b s' =>
      match chars s' with
      | String b' t :: more =>
          if Urllib.is_continuation b'
          then String b (String b' t) :: more
          else String b "" :: String b' t :: more
      | more => String b "" :: more
      end
  end.

(** ["".join(cs)] *)
Fixpoint text_of (cs : list string) : string :=
  match cs with
  | [] => ""
  | c :: cs' => c ++ text_of cs'
  end.

Fixpoint dropwhile {A} (p : A -> bool) (l : list A) : list A :=
  match l with
  | [] => []
  | x :: l' => if p x then dropwhile p l' else l
  end.

(** [s.rstrip()], [s.strip()], [s[:n]] *)
Definition rstrip (pf : Platform) (s : string) : string :=
  text_of (rev (dropwhile (isspace pf) (rev (chars s)))).

Definition strip (pf : Platform) (s : string) : string :=
  text_of (rev (dropwhile (isspace pf) (rev (dropwhile (isspace pf) (chars s))))).

Definition slice_to (n : nat) (s : string) : string :=
  text_of (firstn n (chars s)).

(** A [datetime] as [strftime('%H-%M-%S')] reads it. *)
Record datetime : Type := mkDatetime {
  dt_hour : Z;
  dt_minute : Z;
  dt_second : Z
}.

(** [%H], [%M], [%S]: two digits, for a field from 0 to 99 *)
Definition two_digits (n : Z) : string :=
  if n <? 10 then "0" ++ str_of_int n else str_of_int n.

Definition strftime_HMS (now : datetime) : string :=
  two_digits (dt_hour now) ++ "-" ++ two_digits (dt_minute now)
    ++ "-" ++ two_digits (dt_second now).

(** An item of [call_result.content]. *)
Inductive Content : Type :=
| TextContent (text : string)
| OtherContent.

Record Tool : Type := mkTool { name : string }.

(** What surrounds one update: the answers of the MCP session, of the
    file system and of the clock, and the answer of Telegram to a reply
    [send]. *)
Record Env : Type := mkEnv {
  list_tools : outcome (list Tool);
  call_tool : string -> list (string * string) -> outcome (list Content);
  makedirs : string -> outcome unit;
  now : datetime;
  write_file : string -> string -> outcome unit;
  send : string -> outcome unit
}.

(** What the bot does to the outside, in order. *)
Inductive event : Type :=
| ListTools
| CallTool (tool : string) (arguments : list (string * string))
| MakeDirs (path : string)
| WriteFile (path content : string)
| ReplyText (text : string).

(** Exceptions and the trace of events made so far. *)
Definition M (A : Type) : Type := list event -> outcome A * list event.

Definition ret {A} (a : A) : M A := fun tr => (Return a, tr).

Definition bind {A B} (m : M A) (k : A -> M B) : M B :=
  fun tr =>
    match m tr with
    | (Return a, tr') => k a tr'
    | (Raise e, tr') => (Raise e, tr')
    end.

(** An effect: the event is made, the outside answers. *)
Definition perform {A} (ev : event) (answer : outcome A) : M A :=
  fun tr => (answer, append tr ev).

Definition try_except {A} (body : M A) (handler : exc -> M A) : M A :=
  fun tr =>
    match body tr with
    | (Return a, tr') => (Return a, tr')
    | (Raise e, tr') => handler e tr'
    end.

Declare Scope bot_scope.
Delimit Scope bot_scope with bot.
Notation "x <- m ;; k" := (bind m (fun x => k))
  (at level 61, m at next level, right associativity) : bot_scope.
Notation "m ;; k" := (bind m (fun _ => k))
  (at level 61, right associativity) : bot_scope.
Local Open Scope bot_scope.

(** [await update.message.reply_text(text)] *)
Definition reply_text (env : Env) (text : string) : M unit :=
  perform (ReplyText text) (send env text).

Definition LF : string := String (ascii_of_nat 10) "".

(** [call_search_tool] *)
Definition call_search_tool (env : Env) (query : string) : M string :=
  try_except
    (list_tools_result <- perform ListTools (list_tools env) ;;
     let search_tool :=
       find (fun t => String.eqb (name t) "search") list_tools_result in
     match search_tool with
     | None => ret "Инструмент 'search' не найден на сервере."
     | Some _ =>
         let arguments := [("query", query)] in
         call_result <-
           perform (CallTool "search" arguments) (call_tool env "search" arguments) ;;
         match call_result with
         | TextContent text :: _ => ret text
         | _ => ret "Пустой или неожиданный результат от инструмента 'search'."
         end
     end)
    (fun e => ret ("Ошибка при вызове инструмента 'search': " ++ exc_str e)).

(** The part of a report's file name made from the query. *)
Definition safe_query (pf : Platform) (query : string) : string :=
  let safe_query :=
    rstrip pf
      (text_of
         (filter
            (fun c =>
               isalnum pf c ||
               existsb (String.eqb c) [" "; "-"; "_"])
            (chars query))) in
  slice_to 30 safe_query.

(** [save_result_to_file]: [Some filepath], or [None] after an
    exception. *)
Definition save_result_to_file (pf : Platform) (env : Env)
    (content base_dir query : string) : M (option string) :=
  try_except
    (let report_dir := path_join pf base_dir "report" in
     perform (MakeDirs report_dir) (makedirs env report_dir) ;;
     let now := now env in
     let safe_query := safe_query pf query in
     let filename :=
       "report-" ++ strftime_HMS now ++ "-" ++ safe_query ++ ".txt" in
     let filepath := path_join pf report_dir filename in
     perform (WriteFile filepath content) (write_file env filepath content) ;;
     ret (Some filepath))
    (fun e => ret None).

(** [start] *)
Definition start (env : Env) : M unit :=
  reply_text env "Привет! Введите поисковый запрос.".

(** [handle_query] for an update whose message has the text [text]; the
    application holds [base_dir] and the session of [env]. *)
Definition handle_query (pf : Platform) (env : Env)
    (base_dir text : string) : M unit :=
  let query := strip pf text in
  if String.eqb query "" then
    reply_text env "Пожалуйста, введите непустой запрос."
  else
    search_result <- call_search_tool env query ;;
    if negb (String.eqb search_result "")
       && negb (startswith search_result "Ошибка")
    then
      saved_file_path <- save_result_to_file pf env search_result base_dir query ;;
      match saved_file_path with
      | Some (String c p) =>
          reply_text env
            ("Результат поиска:" ++ LF ++ search_result ++ LF ++ LF
             ++ "Сохранено в: " ++ String c p)
      | _ => reply_text env "Ошибка при сохранении результата."
      end
    else reply_text env ("Ошибка поиска: " ++ search_result).

End Bot.

(** ** Notions used to state the properties *)

Module Observe.

Import World DuckDuckGoSearcher.

Definition second : Z := 1000000.

(** The fields of a result other than its position. *)
Definition fields (r : SearchResult) : string * string * string :=
  (title r, link r, snippet r).

(** The elements of a page that the loop turns into a result, in document
    order, each as the (title, link, snippet) it yields. *)
Definition accepted (elems : list ResultElem) : list (string * string * string) :=
  flat_map
    (fun e => match extract e with Return (Some x) => [x] | _ => [] end)
    elems.

(** Results for [xs] in order, the first at position [n + 1]. *)
Fixpoint numbered (n : Z) (xs : list (string * string * string)) : list SearchResult :=
  match xs with
  | [] => []
  | (t, l, s) :: xs' => mkSearchResult t l s (n + 1) :: numbered (n + 1) xs'
  end.

(** The link of a [.result] element as the markup has it: the [href] of
    the anchor of its title ([""] without the attribute), when the element
    has a title with an anchor. *)
Definition raw_link (e : ResultElem) : option string :=
  match result__title e with
  | None => None
  | Some title_elem =>
      match find_a title_elem with
      | None => None
      | Some link_elem =>
          Some (match href link_elem with Some h => h | None => "" end)
      end
  end.

(** The text of the snippet of a [.result] element, [""] without one. *)
Definition raw_snippet (e : ResultElem) : string :=
  match result__snippet e with Some s => s | None => "" end.

(** The title text of a [.result] element that has a title anchor. *)
Definition raw_title (e : ResultElem) : option string :=
  match result__title e with
  | None => None
  | Some title_elem =>
      match find_a title_elem with
      | None => None
      | Some link_elem => Some (get_text link_elem)
      end
  end.

(** An element whose link, as the markup has it, carries the ad marker. *)
Definition ad_marked (e : ResultElem) : bool :=
  match raw_link e with
  | Some l => contains "y.js" l
  | None => false
  end.

(** The first piece of [s.split(sep)]: [s] up to its first [sep]. *)
Definition before (sep s : string) : string := hd "" (split s sep).

(** What a redirect link [//duckduckgo.com/l/?uddg=] ++ [rest] is cleaned
    to: [rest] up to its first [uddg=], of that the part up to its first
    [&], percent-decoded. *)
Definition destination (rest : string) : string :=
  Urllib.unquote (before "&" (before "uddg=" rest)).

(** The four items that the loop of [format_results_for_llm] appends for
    one result. *)
Definition items (r : SearchResult) : list string :=
  [str_of_int (position r) ++ ". " ++ title r;
   "   URL: " ++ link r;
   "   Summary: " ++ snippet r;
   ""].

(** The lines that [format_results_for_llm] writes for one result, each
    with its line feed, after the line feed that ends the line before. *)
Definition block (r : SearchResult) : string :=
  LF ++ str_of_int (position r) ++ ". " ++ title r ++ LF
     ++ "   URL: " ++ link r ++ LF
     ++ "   Summary: " ++ snippet r ++ LF.

Fixpoint blocks (rs : list SearchResult) : string :=
  match rs with
  | [] => ""
  | r :: rs' => block r ++ blocks rs'
  end.

(** The request that [search] posts for [query]. *)
Definition request (query : string) : Request :=
  mkRequest BASE_URL [("q", query); ("b", ""); ("kl", "")] HEADERS 30.

(** The logging context takes every line sent with [ctx.info]. *)
Definition logs_info (w : World) : Prop :=
  forall msg, info_answer w msg = Return tt.

(** The logging context takes every line sent with [ctx.error]. *)
Definition logs_errors (w : World) : Prop :=
  forall msg, error_answer w msg = Return tt.

(** The call of [search] for [query] in world [w] from state [st] gets
    through the limiter, receives a response with a success status, and
    parses it into the page [soup]; and the logging context takes the
    informational lines of the call, of which the first comes before the
    request and the second before the return. *)
Definition fetched (w : World) (query : string) (st : State) (soup : Soup) : Prop :=
  (exists slept, fst (Limiter.acquire (now w) (rate_limiter st)) = Return slept) /\
  (exists response,
      post w (request query) = Return response /\
      raise_for_status response = Return tt /\
      BeautifulSoup w (text response) = Return soup) /\
  truthy soup = true /\
  logs_info w.

(** A world whose network answers every request with [html], whose
    parser reads every text as [soup], and whose logging context takes
    every line. *)
Definition serving (t : Z) (html : string) (soup : Soup) : World :=
  mkWorld t
    (fun _ => Return (mkResponse (Return tt) html))
    (fun _ => Return soup)
    (fun _ => Return tt)
    (fun _ => Return tt).

(** A world whose network raises [e] on every request; the logging
    context takes every line. *)
Definition failing (t : Z) (e : exc) : World :=
  mkWorld t (fun _ => Raise e) (fun _ => Return (mkSoup true []))
    (fun _ => Return tt) (fun _ => Return tt).


(** A fresh searcher: [RateLimiter()] with its default ceiling, nothing
    written yet. *)
Definition fresh : State := mkState (Limiter.init 30) [].

(** A [.result] element with title text [t], link [h] and snippet [s]. *)
Definition entry (t h s : string) : ResultElem :=
  mkResultElem (Some (mkTitleElem (Some (mkAnchor t (Some h))))) (Some s).

(** A page with three ordinary elements, an ad and an element without a
    title, the ad and the untitled one in between. *)
Definition sample_page : Soup :=
  mkSoup true
    [entry "One" "https://one.example/" "first";
     entry "Ad" "https://duckduckgo.com/y.js?ad_domain=shop.example" "buy";
     entry "Two" "//duckduckgo.com/l/?uddg=https%3A%2F%2Freal.example%2Fpage&extra=1" "";
     mkResultElem None (Some "stray");
     entry "Three" "https://duckduckgo.com/l/?uddg=https%3A%2F%2Fthree.example%2F" "third"].

(** A page of links that wrap a destination without the prefix
    [//duckduckgo.com/l/?uddg=]: another scheme, another host. *)
Definition wrapped_page : Soup :=
  mkSoup true
    [entry "Scheme" "https://duckduckgo.com/l/?uddg=https%3A%2F%2Freal.example%2Fpage" "";
     entry "Host" "//provider.example/l/?uddg=https%3A%2F%2Freal.example%2Fpage&extra=1" ""].

(** A page with one redirect link whose destination, once decoded,
    carries the ad marker. *)
Definition encoded_ad_page : Soup :=
  mkSoup true
    [entry "Ad" "//duckduckgo.com/l/?uddg=https%3A%2F%2Fads.example%2Fy%2Ejs" "buy"].

End Observe.

(** ** Notions used to state the further properties *)

Module Notions.

Import World DuckDuckGoSearcher.

(** What is written for an exception that ends a search. *)
Definition diagnostic (e : exc) : list (channel * string) :=
  match e with
  | TimeoutException _ => [(CtxError, "Search request timed out")]
  | HTTPError m => [(CtxError, "HTTP error occurred: " ++ m)]
  | IndexError m | OtherException m =>
      [(CtxError, "Unexpected error during search: " ++ m); (Stderr, m)]
  end.

End Notions.

(** ** Notions used to state the properties of the bot *)

Module BotNotions.

Import Bot.

(** The replies among the events of a trace. *)
Definition replies (tr : list event) : list string :=
  flat_map (fun ev => match ev with ReplyText t => [t] | _ => [] end) tr.

(** The events of a trace that touch the file system. *)
Definition file_events (tr : list event) : list event :=
  filter
    (fun ev => match ev with MakeDirs _ | WriteFile _ _ => true | _ => false end)
    tr.

(** A string made of continuation bytes only. *)
Fixpoint continuation (s : string) : bool :=
  match s with
  | EmptyString => true
  | String b s' => Urllib.is_continuation b && continuation s'
  end.

(** A character as [chars] cuts it: one byte and the continuation bytes
    after it. *)
Definition character (c : string) : Prop :=
  match c with
  | EmptyString => False
  | String _ t => continuation t = true
  end.

(** A character that can follow another: its first byte is not a
    continuation byte. *)
Definition inner_character (c : string) : Prop :=
  match c with
  | EmptyString => False
  | String b t => Urllib.is_continuation b = false /\ continuation t = true
  end.

(** A list of characters that is the cut of some [str]. *)
Definition characters (cs : list string) : Prop :=
  match cs with
  | [] => True
  | c :: cs' => character c /\ Forall inner_character cs'
  end.

(** The characters that [safe_query] lets through. *)
Definition allowed (pf : Platform) (c : string) : Prop :=
  isalnum pf c = true \/ c = " " \/ c = "-" \/ c = "_".

(** The name that [save_result_to_file] gives the report of [query]. *)
Definition report_name (pf : Platform) (env : Env) (query : string) : string :=
  "report-" ++ strftime_HMS (now env) ++ "-" ++ safe_query pf query ++ ".txt".

(** The path that [save_result_to_file] writes to. *)
Definition report_path (pf : Platform) (env : Env) (base_dir query : string) : string :=
  path_join pf (path_join pf base_dir "report") (report_name pf env query).

(** A platform restricted to ASCII: letters and digits are alphanumeric,
    blank, tab, line feed, vertical tab, form feed and carriage return are
    white space, paths are joined as on POSIX. *)
Definition ascii_isalnum (c : string) : bool :=
  match c with
  | String b EmptyString =>
      let n := N_of_ascii b in
      ((48 <=? n)%N && (n <=? 57)%N) || ((65 <=? n)%N && (n <=? 90)%N)
      || ((97 <=? n)%N && (n <=? 122)%N)
  | _ => false
  end.

Definition ascii_isspace (c : string) : bool :=
  match c with
  | String b EmptyString =>
      let n := N_of_ascii b in
      (n =? 32)%N || ((9 <=? n)%N && (n <=? 13)%N)
  | _ => false
  end.

Definition posix_join (a b : string) : string :=
  if startswith b "/" then b
  else if String.eqb a "" then b
  else if String.eqb (substring (String.length a - 1) 1 a) "/" then a ++ b
  else a ++ "/" ++ b.

Definition ascii_platform : Platform :=
  mkPlatform ascii_isalnum ascii_isspace posix_join.

(** A session that offers the tool [search] and answers every call with
    the text [report]; a file system on which everything succeeds; a clock
    that reads 09:05:30; replies are delivered. *)
Definition answering (report : string) : Env :=
  mkEnv
    (Return [mkTool "fetch"; mkTool "search"])
    (fun _ _ => Return [TextContent report])
    (fun _ => Return tt)
    (mkDatetime 9 5 30)
    (fun _ _ => Return tt)
    (fun _ => Return tt).

(** A session without the tool [search]. *)
Definition toolless : Env :=
  mkEnv
    (Return [mkTool "fetch"])
    (fun _ _ => Return [])
    (fun _ => Return tt)
    (mkDatetime 9 5 30)
    (fun _ _ => Return tt)
    (fun _ => Return tt).

(** A session that raises [e] when asked for its tools. *)
Definition broken (e : exc) : Env :=
  mkEnv
    (Raise e)
    (fun _ _ => Return [])
    (fun _ => Return tt)
    (mkDatetime 9 5 30)
    (fun _ _ => Return tt)
    (fun _ => Return tt).

(** A file system that refuses to write. *)
Definition read_only (report : string) : Env :=
  mkEnv
    (Return [mkTool "search"])
    (fun _ _ => Return [TextContent report])
    (fun _ => Return tt)
    (mkDatetime 9 5 30)
    (fun _ _ => Raise (OtherException "Read-only file system"))
    (fun _ => Return tt).

(** As [answering], but Telegram raises [e] on every reply. *)
Definition unreachable (report : string) (e : exc) : Env :=
  mkEnv
    (Return [mkTool "fetch"; mkTool "search"])
    (fun _ _ => Return [TextContent report])
    (fun _ => Return tt)
    (mkDatetime 9 5 30)
    (fun _ _ => Return tt)
    (fun _ => Raise e).

End BotNotions.

Import Limiter World DuckDuckGoSearcher Observe.

(** Unfolding of [search] down to the calls of its collaborators. *)
Ltac run_search :=
  unfold search, try_except, bind, lift, rate_limiter_acquire, ctx_info,
    ctx_error, print_exc, write, ret;
  change (mkRequest BASE_URL [("q", ?q); ("b", ""); ("kl", "")] HEADERS 30)
    with (request q).

(** No page is fetched when a stage is known to fail. *)
Ltac not_fetched Ha :=
  let soup := fresh "soup" in
  let Ha' := fresh "Ha" in
  intros soup ((? & Ha') & (? & ? & ? & ?) & ? & ?);
  rewrite Ha in Ha'; cbn [fst] in Ha'; congruence.

(** * Properties *)

(** ** Text operations *)

Example split_uddg :
  split "//duckduckgo.com/l/?uddg=https%3A%2F%2Fa.b%2Fc&rut=1" "uddg="
  = ["//duckduckgo.com/l/?"; "https%3A%2F%2Fa.b%2Fc&rut=1"].
Proof. reflexivity. Qed.

Example split_overlap : split "aaaa" "aa" = [""; ""; ""].
Proof. reflexivity. Qed.

Example split_none : split "abc" "&" = ["abc"].
Proof. reflexivity. Qed.

Example unquote_page :
  Urllib.unquote "https%3A%2F%2Freal.example%2Fpage" = "https://real.example/page".
Proof. reflexivity. Qed.

Example unquote_stray : Urllib.unquote "100%%41%zz%4" = "100%A%zz%4".
Proof. reflexivity. Qed.

Example str_of_int_ex : (str_of_int 0, str_of_int 12, str_of_int (-5)) = ("0", "12", "-5").
Proof. reflexivity. Qed.

Lemma string_app_nil_r (s : string) : s ++ "" = s.
Proof. induction s as [|c s IH]; [reflexivity|]. simpl. now rewrite IH. Qed.

Lemma string_app_assoc (a b c : string) : (a ++ b) ++ c = a ++ (b ++ c).
Proof. induction a as [|x a IH]; [reflexivity|]. simpl. now rewrite IH. Qed.

Lemma startswith_app (p s : string) :
  startswith s p = true -> exists rest, s = p ++ rest.
Proof.
  revert s. induction p as [|b p IH]; intros s H.
  - exists s. reflexivity.
  - destruct s as [|a s]; simpl in H; [discriminate|].
    apply andb_true_iff in H as [Hab Hs].
    apply Ascii.eqb_eq in Hab. subst b.
    destruct (IH _ Hs) as [rest ->].
    exists rest. reflexivity.
Qed.

Lemma split_from_nonempty (sep : string) (s : string) :
  forall skip cur, exists x l, split_from sep skip cur s = x :: l.
Proof.
  induction s as [|c s IH]; intros skip cur.
  - simpl. eauto.
  - change (split_from sep skip cur (String c s)) with
      (match skip with
       | S k => split_from sep k cur s
       | O =>
           if startswith (String c s) sep
           then cur :: split_from sep (String.length sep - 1) "" s
           else split_from sep 0 (cur ++ String c "") s
       end).
    destruct skip as [|k]; [|apply IH].
    destruct (startswith (String c s) sep); [eauto | apply IH].
Qed.

Lemma getitem_split_0 (s sep : string) :
  getitem (split s sep) 0 = Return (before sep s).
Proof.
  unfold before, split.
  destruct (split_from_nonempty sep s 0 "") as (x & l & ->).
  reflexivity.
Qed.

(** Splitting a redirect link at [uddg=]: the first piece is the prefix up
    to the parameter name, the pieces after it are those of the rest. *)
Lemma split_redirect (rest : string) :
  split ("//duckduckgo.com/l/?uddg=" ++ rest) "uddg="
  = "//duckduckgo.com/l/?" :: split rest "uddg=".
Proof. reflexivity. Qed.

Lemma getitem_split_redirect (rest : string) :
  getitem (split ("//duckduckgo.com/l/?uddg=" ++ rest) "uddg=") 1
  = Return (before "uddg=" rest).
Proof.
  rewrite split_redirect. unfold before, split.
  destruct (split_from_nonempty "uddg=" rest 0 "") as (x & l & ->).
  reflexivity.
Qed.

(** The first piece of a split ends where the separator first occurs. *)
Lemma split_from_head (sep s : string) :
  forall cur,
  exists p tail,
    hd "" (split_from sep 0 cur s) = cur ++ p /\
    s = p ++ tail /\
    (tail = "" \/ startswith tail sep = true) /\
    (forall p1 p2,
        p = p1 ++ p2 -> p2 <> "" -> startswith (p2 ++ tail) sep = false).
Proof.
  induction s as [|c s IH]; intros cur.
  - exists "", "". cbn [split_from hd]. rewrite string_app_nil_r.
    repeat split; auto.
    intros [|x p1] p2 Hp Hne; simpl in Hp; [congruence | discriminate].
  - change (split_from sep 0 cur (String c s)) with
      (if startswith (String c s) sep
       then cur :: split_from sep (String.length sep - 1) "" s
       else split_from sep 0 (cur ++ String c "") s).
    destruct (startswith (String c s) sep) eqn:Hhere.
    + exists "", (String c s). cbn [hd]. rewrite string_app_nil_r.
      repeat split; auto.
      intros [|x p1] p2 Hp Hne; simpl in Hp; [congruence | discriminate].
    + destruct (IH (cur ++ String c "")) as (p & tail & Hhd & -> & Htail & Hfree).
      exists (String c p), tail. rewrite Hhd, string_app_assoc.
      repeat split; auto.
      intros [|x p1] p2 Hp Hne; simpl in Hp.
      * subst p2. exact Hhere.
      * injection Hp as _ Hp. exact (Hfree _ _ Hp Hne).
Qed.

(** [before sep s] is [s] up to the first place where [sep] occurs, all
    of [s] when it occurs nowhere. *)
Lemma before_first (sep s : string) :
  exists tail,
    s = before sep s ++ tail /\
    (tail = "" \/ startswith tail sep = true) /\
    (forall p1 p2,
        before sep s = p1 ++ p2 -> p2 <> "" ->
        startswith (p2 ++ tail) sep = false).
Proof.
  destruct (split_from_head sep s "") as (p & tail & Hhd & Hs & Htail & Hfree).
  unfold before, split. rewrite Hhd. cbn [String.append]. eauto.
Qed.

(** ** The rate limiter *)

Lemma geb_le (a b : Z) : (a >=? b) = true <-> b <= a.
Proof. rewrite Z.geb_leb. apply Z.leb_le. Qed.

Lemma geb_gt (a b : Z) : (a >=? b) = false <-> a < b.
Proof. rewrite Z.geb_leb. apply Z.leb_gt. Qed.

(** Whenever [acquire] returns, the entry it has appended is the clock
    reading taken on entry, whether or not the call slept. *)
Lemma acquire_appends_now (now : Z) (self self' : RateLimiter) (slept : Z) :
  acquire now self = (Return slept, self') ->
  requests self' =
    (filter (fun req => now - req <? minute) (requests self) ++ [now])%list.
Proof.
  unfold acquire. cbn [requests requests_per_minute].
  intros H. pose proof (f_equal fst H) as Hfst.
  apply (f_equal snd) in H. revert Hfst H.
  destruct (len _ >=? _).
  - destruct (getitem _ 0) as [oldest|e].
    + destruct (minute - _ >? 0); cbn [snd]; intros _ <-; reflexivity.
    + cbn [fst]. discriminate.
  - cbn [snd]; intros _ <-; reflexivity.
Qed.

(** With a ceiling of at least one, [acquire] returns. *)
Lemma acquire_returns (now : Z) (self : RateLimiter) :
  1 <= requests_per_minute self ->
  exists slept self', acquire now self = (Return slept, self').
Proof.
  intros Hc. unfold acquire. cbn [requests requests_per_minute].
  destruct (len _ >=? _) eqn:Hfull; [|eauto].
  apply geb_le in Hfull.
  destruct (filter _ (requests self)) as [|oldest kept] eqn:Hkept.
  - unfold len in Hfull. simpl in Hfull. lia.
  - cbn [getitem nth_error]. destruct (minute - _ >? 0); eauto.
Qed.

(** A call that finds fewer retained entries than the ceiling returns
    without sleeping. *)
Lemma acquire_free_slot (now : Z) (self : RateLimiter) :
  len (filter (fun req => now - req <? minute) (requests self))
    < requests_per_minute self ->
  fst (acquire now self) = Return 0.
Proof.
  intros Hroom. unfold acquire. cbn [requests requests_per_minute].
  apply geb_gt in Hroom. rewrite Hroom. reflexivity.
Qed.

(** C1, which the code breaks.  The claim bounds by the ceiling the number
    of calls of [acquire] that return in any trailing minute.  A limiter
    with ceiling 1 is called at 0 s, at 10 s, and again as soon as the
    second call has returned: the calls return at 0 s, 60 s and 70 s, so
    two of them are authorized in the minute that ends at 70 s.  The
    entries the limiter keeps for the second and third call, 10 s and
    60 s, are the instants the calls entered, not those they returned. *)
Theorem acquire_exceeds_ceiling :
  let calls := [0; 10 * second; 0] in
  authorizations (init 1) 0 calls = [0; 60 * second; 70 * second] /\
  requests (after_calls (init 1) 0 calls) = [10 * second; 60 * second] /\
  within_window (70 * second) (authorizations (init 1) 0 calls)
    > requests_per_minute (init 1).
Proof. vm_compute. repeat split. Qed.

(** The same with the default ceiling of 30: of 61 calls made one
    microsecond apart, the calls 31 to 61 all return within 31
    microseconds after the first minute. *)
Example acquire_exceeds_default_ceiling :
  within_window (60 * second + 31) (authorizations (init 30) 0 (repeat 1 61)) = 31.
Proof. vm_compute. reflexivity. Qed.

(** C2, which the code breaks.  The claim has [acquire] append the instant
    taken after the wait.  A limiter with ceiling 1 that holds the entry
    0 s is called at 10 s: the call sleeps 50 s, so it returns at 60 s, and
    the entry it appends is 10 s, the clock reading taken on entry. *)
Theorem acquire_appends_entry_instant :
  acquire (10 * second) (mkRateLimiter 1 [0])
  = (Return (50 * second), mkRateLimiter 1 [0; 10 * second]).
Proof. reflexivity. Qed.

(** C4, which the code breaks.  The claim has [acquire] wait, and never
    raise, when the ceiling is zero or negative.  On a limiter with such a
    ceiling and no entries, as [RateLimiter(n)] makes it, the call at any
    instant finds the ceiling reached, reads [self.requests[0]] of the
    empty list and raises [IndexError]; nothing is appended. *)
Theorem acquire_raises_without_ceiling (now : Z) (n : nat) :
  acquire now (init (- Z.of_nat n))
  = (Raise (IndexError "list index out of range"), init (- Z.of_nat n)).
Proof.
  unfold acquire, init. cbn [requests requests_per_minute filter].
  replace (len [] >=? - Z.of_nat n) with true; [reflexivity|].
  symmetry. apply geb_le. unfold len. simpl. lia.
Qed.

(** ** One element of the page *)

Section Extract.

Variable e : ResultElem.

Lemma extract_no_anchor : raw_link e = None -> extract e = Return None.
Proof.
  unfold raw_link, extract.
  destruct (result__title e) as [t|]; [|reflexivity].
  destruct (find_a t); [discriminate | reflexivity].
Qed.

Lemma raw_title_link : raw_title e = None <-> raw_link e = None.
Proof.
  unfold raw_title, raw_link.
  destruct (result__title e) as [t|]; [|tauto].
  destruct (find_a t); split; intros; (discriminate || reflexivity).
Qed.

Lemma extract_ad (h : string) :
  raw_link e = Some h -> contains "y.js" h = true -> extract e = Return None.
Proof.
  unfold raw_link, extract.
  destruct (result__title e) as [t|]; [|discriminate].
  destruct (find_a t) as [a|]; [|discriminate].
  intros [= <-] ->. reflexivity.
Qed.

Lemma extract_plain (t h : string) :
  raw_title e = Some t -> raw_link e = Some h ->
  contains "y.js" h = false ->
  startswith h "//duckduckgo.com/l/?uddg=" = false ->
  extract e = Return (Some (t, h, raw_snippet e)).
Proof.
  unfold raw_title, raw_link, raw_snippet, extract.
  destruct (result__title e) as [te|]; [|discriminate].
  destruct (find_a te) as [a|]; [|discriminate].
  intros [= <-] [= <-] -> ->. reflexivity.
Qed.

Lemma extract_redirect (t rest : string) :
  raw_title e = Some t ->
  raw_link e = Some ("//duckduckgo.com/l/?uddg=" ++ rest) ->
  contains "y.js" ("//duckduckgo.com/l/?uddg=" ++ rest) = false ->
  extract e = Return (Some (t, destination rest, raw_snippet e)).
Proof.
  remember ("//duckduckgo.com/l/?uddg=" ++ rest) as h eqn:Eh.
  unfold raw_title, raw_link, raw_snippet, extract.
  destruct (result__title e) as [te|]; [|discriminate].
  destruct (find_a te) as [a|]; [|discriminate].
  intros [= <-] [= Hh]. cbv zeta. rewrite Hh. intros ->. subst h.
  replace (startswith ("//duckduckgo.com/l/?uddg=" ++ rest)
             "//duckduckgo.com/l/?uddg=") with true by reflexivity.
  rewrite getitem_split_redirect. cbn [obind].
  rewrite getitem_split_0. reflexivity.
Qed.

(** What an accepted element looks like in the markup. *)
Lemma extract_accepts (t l s : string) :
  extract e = Return (Some (t, l, s)) ->
  exists h,
    raw_title e = Some t /\ raw_link e = Some h /\ s = raw_snippet e /\
    contains "y.js" h = false /\
    ((startswith h "//duckduckgo.com/l/?uddg=" = false /\ l = h) \/
     (exists rest, h = "//duckduckgo.com/l/?uddg=" ++ rest /\ l = destination rest)).
Proof.
  intros Hx.
  destruct (raw_link e) as [h|] eqn:Hl.
  2:{ rewrite (extract_no_anchor Hl) in Hx. discriminate. }
  destruct (raw_title e) as [t0|] eqn:Ht.
  2:{ apply raw_title_link in Ht. congruence. }
  destruct (contains "y.js" h) eqn:Had.
  { rewrite (extract_ad _ Hl Had) in Hx. discriminate. }
  exists h.
  destruct (startswith h "//duckduckgo.com/l/?uddg=") eqn:Hp.
  - destruct (startswith_app _ _ Hp) as [rest ->].
    rewrite (extract_redirect _ _ Ht Hl Had) in Hx.
    injection Hx as <- <- <-. repeat split; eauto.
  - rewrite (extract_plain _ _ Ht Hl Had Hp) in Hx.
    injection Hx as <- <- <-. repeat split; auto.
Qed.

(** The loop body never raises: a link that starts with the redirect
    prefix splits at [uddg=] into at least two pieces. *)
Lemma extract_returns : exists o, extract e = Return o.
Proof.
  destruct (raw_link e) as [h|] eqn:Hl.
  2:{ rewrite (extract_no_anchor Hl). eauto. }
  destruct (raw_title e) as [t|] eqn:Ht.
  2:{ apply raw_title_link in Ht. congruence. }
  destruct (contains "y.js" h) eqn:Had.
  { rewrite (extract_ad _ Hl Had). eauto. }
  destruct (startswith h "//duckduckgo.com/l/?uddg=") eqn:Hp.
  - destruct (startswith_app _ _ Hp) as [rest ->].
    rewrite (extract_redirect _ _ Ht Hl Had). eauto.
  - rewrite (extract_plain _ _ Ht Hl Had Hp). eauto.
Qed.

End Extract.

(** ** The loop over the page *)

Lemma len_append {A} (l : list A) (x : A) : len (append l x) = len l + 1.
Proof. unfold len, append. rewrite length_app. simpl. lia. Qed.

Lemma in_firstn {A} (k : nat) (l : list A) (x : A) :
  In x (firstn k l) -> In x l.
Proof.
  intros H. rewrite <- (firstn_skipn k l). apply in_or_app. now left.
Qed.

Lemma numbered_firstn (k : nat) :
  forall n xs, firstn k (numbered n xs) = numbered n (firstn k xs).
Proof.
  induction k as [|k IH]; intros n xs; [reflexivity|].
  destruct xs as [|[[t l] s] xs]; [reflexivity|].
  simpl. now rewrite IH.
Qed.

Lemma numbered_fields (xs : list (string * string * string)) :
  forall n, map fields (numbered n xs) = xs.
Proof.
  induction xs as [|[[t l] s] xs IH]; intros n; [reflexivity|].
  simpl. now rewrite IH.
Qed.

Lemma numbered_length (xs : list (string * string * string)) :
  forall n, List.length (numbered n xs) = List.length xs.
Proof.
  intros n. rewrite <- (numbered_fields xs n) at 2. now rewrite length_map.
Qed.

Lemma numbered_position (xs : list (string * string * string)) :
  forall n,
    map position (numbered n xs)
    = map (fun i => n + Z.of_nat i) (seq 1 (List.length xs)).
Proof.
  induction xs as [|[[t l] s] xs IH]; intros n; [reflexivity|].
  cbn [numbered map List.length seq position]. f_equal; try lia.
  rewrite IH, <- (seq_shift (List.length xs) 1), map_map.
  apply map_ext. intros i. lia.
Qed.

(** The loop as a whole: started with [results] already accepted, it
    appends the accepted elements in document order, numbered on from
    [len results], and stops after the append that reaches [max_results];
    so at least one element is appended when there is one. *)
Lemma scan_spec (max_results : Z) (elems : list ResultElem) :
  forall results,
    scan max_results elems results
    = Return
        (results ++
         firstn (Z.to_nat (Z.max 1 (max_results - len results)))
           (numbered (len results) (accepted elems)))%list.
Proof.
  induction elems as [|e elems IH]; intros results.
  - cbn [scan accepted flat_map numbered]. now rewrite firstn_nil, app_nil_r.
  - cbn [scan accepted flat_map].
    destruct (extract_returns e) as [[[[t l] s]|] ->]; [|apply IH].
    cbn [app numbered]. rewrite len_append.
    destruct (len results + 1 >=? max_results) eqn:Hstop.
    + apply geb_le in Hstop.
      replace (Z.to_nat (Z.max 1 (max_results - len results))) with 1%nat by lia.
      reflexivity.
    + apply geb_gt in Hstop. rewrite IH, len_append.
      replace (Z.to_nat (Z.max 1 (max_results - len results)))
        with (S (Z.to_nat (Z.max 1 (max_results - (len results + 1))))) by lia.
      cbn [firstn]. unfold append. now rewrite <- app_assoc.
Qed.

Lemma scan_numbered (max_results : Z) (elems : list ResultElem) :
  scan max_results elems []
  = Return (numbered 0 (firstn (Z.to_nat (Z.max 1 max_results)) (accepted elems))).
Proof.
  rewrite scan_spec. cbn [app]. unfold len at 1 2. cbn [List.length Z.of_nat].
  now rewrite Z.sub_0_r, numbered_firstn.
Qed.

(** Every result of the loop comes from an element of the page that the
    loop body accepts with the fields of the result. *)
Lemma scan_provenance (max_results : Z) (elems : list ResultElem)
    (results : list SearchResult) (r : SearchResult) :
  scan max_results elems [] = Return results -> In r results ->
  exists e, In e elems /\ extract e = Return (Some (fields r)).
Proof.
  rewrite scan_numbered. intros [= <-] Hr.
  apply (in_map fields) in Hr. rewrite numbered_fields in Hr.
  apply in_firstn in Hr. unfold accepted in Hr.
  apply in_flat_map in Hr as (e & He & Hx).
  exists e. split; [exact He|].
  destruct (extract e) as [[x|]|]; simpl in Hx; try tauto.
  destruct Hx as [->|[]]. reflexivity.
Qed.

(** Elements whose link carries the ad marker are as good as absent. *)
Lemma accepted_without_ads (elems : list ResultElem) :
  accepted (filter (fun e => negb (ad_marked e)) elems) = accepted elems.
Proof.
  induction elems as [|e elems IH]; [reflexivity|].
  cbn [filter]. unfold ad_marked at 1.
  destruct (raw_link e) as [h|] eqn:Hl.
  - destruct (contains "y.js" h) eqn:Had; cbn [negb].
    + cbn [accepted flat_map]. rewrite (extract_ad _ _ Hl Had). exact IH.
    + cbn [accepted flat_map]. f_equal. exact IH.
  - cbn [negb accepted flat_map]. f_equal. exact IH.
Qed.

Lemma accepted_nonempty (elems : list ResultElem) (e : ResultElem) (h : string) :
  In e elems -> raw_link e = Some h -> contains "y.js" h = false ->
  accepted elems <> [].
Proof.
  intros He Hl Had Hnone.
  assert (Hin : forall x, ~ In x (accepted elems)) by (rewrite Hnone; auto).
  destruct (raw_title e) as [t|] eqn:Ht.
  2:{ apply raw_title_link in Ht. congruence. }
  assert (exists x, extract e = Return (Some x)) as [x Hx].
  { destruct (startswith h "//duckduckgo.com/l/?uddg=") eqn:Hp.
    - destruct (startswith_app _ _ Hp) as [rest ->].
      rewrite (extract_redirect _ _ _ Ht Hl Had). eauto.
    - rewrite (extract_plain _ _ _ Ht Hl Had Hp). eauto. }
  apply (Hin x). unfold accepted. apply in_flat_map.
  exists e. split; [exact He|]. rewrite Hx. now left.
Qed.

(** ** The search as a whole *)

(** The paths of a search: the answers of the collaborators are split in
    the order in which the call asks for them. *)
Ltac search_paths :=
  run_search;
  destruct (acquire _ _) as [[?slept|?e] ?rl] eqn:?Ha; cbn [rate_limiter written];
  [ destruct (info_answer _ ("Searching DuckDuckGo for: " ++ _)) as [[]|?e] eqn:?Hi;
    [ destruct (post _ _) as [?response|?e] eqn:?Hp;
      [ destruct (raise_for_status _) as [[]|?e] eqn:?Hs;
        [ destruct (BeautifulSoup _ _) as [?soup|?e] eqn:?Hb;
          [ destruct (truthy _) eqn:?Ht; cbn [negb];
            [ rewrite scan_numbered;
              destruct (info_answer _ ("Successfully found " ++ _)) as [[]|?e] eqn:?Hi
            | destruct (error_answer _ "Failed to parse HTML response")
                as [[]|?e] eqn:?He ]
          | ]
        | ]
      | ]
    | ]
  | ].

(** The handlers of a search, for the exception at hand. *)
Ltac search_handler :=
  try match goal with
      | e : exc |- _ =>
          destruct e; cbn [is_TimeoutException is_HTTPError exc_str];
          match goal with
          | |- context [error_answer ?w ?m] =>
              destruct (error_answer w m) as [[]|?e] eqn:?He
          end
      end.

(** What a call that fetches the page [soup] returns. *)
Lemma search_fetched (w : World) (query : string) (max_results : Z)
    (st : State) (soup : Soup) :
  fetched w query st soup ->
  exists st',
    search w query max_results st
    = (Return (numbered 0 (firstn (Z.to_nat (Z.max 1 max_results))
                             (accepted (select_result soup)))), st').
Proof.
  intros ((slept & Ha) & (response & Hp & Hs & Hb) & Ht & Hi).
  run_search.
  destruct (acquire (now w) (rate_limiter st)) as [r rl].
  cbn [fst] in Ha. subst r. cbn [rate_limiter written].
  rewrite Hi, Hp, Hs, Hb, Ht. cbn [negb]. rewrite scan_numbered, Hi.
  eexists. reflexivity.
Qed.

(** A list that a call returns is empty, or it is what the loop makes of
    the page that the call received. *)
Lemma search_returned (w : World) (query : string) (max_results : Z)
    (st st' : State) (results : list SearchResult) :
  search w query max_results st = (Return results, st') ->
  results = [] \/
  exists soup,
    (exists slept, fst (acquire (now w) (rate_limiter st)) = Return slept) /\
    (exists response,
        post w (request query) = Return response /\
        raise_for_status response = Return tt /\
        BeautifulSoup w (text response) = Return soup) /\
    truthy soup = true /\
    results = numbered 0 (firstn (Z.to_nat (Z.max 1 max_results))
                            (accepted (select_result soup))).
Proof.
  intros Hsearch. apply (f_equal fst) in Hsearch. revert Hsearch.
  search_paths; search_handler; cbn [fst];
    try discriminate; try (intros [= <-]; now left).
  intros [= <-]. right. eauto 12.
Qed.

(** A call raises only what the logging context raised in a handler. *)
Lemma search_total (w : World) (query : string) (max_results : Z) (st : State) :
  logs_errors w ->
  exists results st', search w query max_results st = (Return results, st').
Proof.
  intros Herr.
  search_paths; search_handler;
    try match goal with
        | H : error_answer _ _ = Raise _ |- _ => rewrite Herr in H; discriminate H
        end;
    do 2 eexists; reflexivity.
Qed.

Lemma fetched_unique (w : World) (query : string) (st : State) (soup soup' : Soup) :
  fetched w query st soup -> fetched w query st soup' -> soup = soup'.
Proof.
  intros (_ & (r & Hp & _ & Hb) & _) (_ & (r' & Hp' & _ & Hb') & _).
  congruence.
Qed.

(** With a logging context that takes every line, a call either fetches
    a page and returns what the loop makes of it, or fetches none and
    returns the empty list. *)
Lemma search_cases (w : World) (query : string) (max_results : Z) (st : State) :
  logs_info w -> logs_errors w ->
  exists st',
    (exists soup,
        fetched w query st soup /\
        search w query max_results st
        = (Return (numbered 0 (firstn (Z.to_nat (Z.max 1 max_results))
                                 (accepted (select_result soup)))), st'))
    \/ ((forall soup, ~ fetched w query st soup) /\
        search w query max_results st = (Return [], st')).
Proof.
  intros Hinfo Herr.
  search_paths; search_handler;
    try match goal with
        | H : error_answer _ _ = Raise _ |- _ => rewrite Herr in H; discriminate H
        | H : info_answer _ _ = Raise _ |- _ => rewrite Hinfo in H; discriminate H
        end;
    try (eexists; right; (split; [not_fetched Ha | reflexivity])).
  eexists. left. exists soup. split; [|reflexivity].
  unfold fetched. rewrite Ha. cbn [fst]. eauto 12.
Qed.

(** The results of a call that fetched [soup] come from elements of
    [soup] that the loop body accepts. *)
Lemma search_provenance (w : World) (query : string) (max_results : Z)
    (st st' : State) (soup : Soup) (results : list SearchResult) (r : SearchResult) :
  fetched w query st soup ->
  search w query max_results st = (Return results, st') ->
  In r results ->
  exists e, In e (select_result soup) /\ extract e = Return (Some (fields r)).
Proof.
  intros Hf Hs Hr.
  destruct (search_fetched w query max_results st soup Hf) as (st'' & Hs').
  rewrite Hs' in Hs. apply (f_equal fst) in Hs. cbn [fst] in Hs.
  apply (scan_provenance max_results (select_result soup) results r); [|exact Hr].
  rewrite scan_numbered. exact Hs.
Qed.




(** C5.  For a positive [max_results], a list that [search] returns has
    at most [max_results] results, their positions are 1, 2, ... up to
    their number, and when a page was fetched they are, field by field and
    in document order, the first [max_results] elements that the loop
    accepts.  And [search] does return a list, where the logging context
    takes the lines sent with [ctx.error]. *)
Theorem search_bounded_numbered_ordered
    (w : World) (query : string) (max_results : Z) (st : State) :
  0 < max_results ->
  (forall results st',
      search w query max_results st = (Return results, st') ->
      len results <= max_results /\
      map position results = map Z.of_nat (seq 1 (List.length results)) /\
      (forall soup,
          fetched w query st soup ->
          map fields results
          = firstn (Z.to_nat max_results) (accepted (select_result soup)))) /\
  (logs_errors w ->
   exists results st', search w query max_results st = (Return results, st')).
Proof.
  intros Hmax. split; [|apply search_total].
  intros results st' Hs.
  assert (Hfetched : forall soup,
             fetched w query st soup ->
             map fields results
             = firstn (Z.to_nat max_results) (accepted (select_result soup))).
  { intros soup Hf.
    destruct (search_fetched w query max_results st soup Hf) as (st'' & Hs').
    rewrite Hs' in Hs. apply (f_equal fst) in Hs. cbn [fst] in Hs.
    injection Hs as <-.
    replace (Z.max 1 max_results) with max_results by lia.
    apply numbered_fields. }
  destruct (search_returned _ _ _ _ _ _ Hs)
    as [-> | (soup & _ & _ & _ & ->)].
  - split; [unfold len; simpl; lia|]. split; [reflexivity | exact Hfetched].
  - replace (Z.max 1 max_results) with max_results in * by lia.
    split; [|split; [|exact Hfetched]].
    + unfold len. rewrite numbered_length.
      pose proof (firstn_le_length (Z.to_nat max_results)
                    (accepted (select_result soup))). lia.
    + rewrite numbered_position, numbered_length. reflexivity.
Qed.

Lemma search_bounded_numbered_ordered_witness :
  0 < 2 /\
  logs_errors (serving 0 "" sample_page) /\
  exists results st',
    search (serving 0 "" sample_page) "rocq" 2 fresh = (Return results, st') /\
    len results <= 2 /\
    map position results = map Z.of_nat (seq 1 (List.length results)) /\
    (forall soup,
        fetched (serving 0 "" sample_page) "rocq" fresh soup ->
        map fields results
        = firstn (Z.to_nat 2) (accepted (select_result soup))).
Proof.
  assert (Hmax : 0 < 2) by lia.
  assert (Herr : logs_errors (serving 0 "" sample_page))
    by (intros msg; reflexivity).
  split; [exact Hmax|]. split; [exact Herr|].
  destruct (search_bounded_numbered_ordered (serving 0 "" sample_page) "rocq" 2
              fresh Hmax) as [Hlist Hreturns].
  destruct (Hreturns Herr) as (results & st' & Hs).
  exists results, st'. split; [exact Hs | exact (Hlist _ _ Hs)].
Defined.

(** The page of three ordinary elements, an ad and an untitled element
    gives three results, numbered 1 to 3; the second link is unwrapped,
    the third, which has another scheme, is not. *)
Example search_sample_page :
  fst (search (serving 0 "" sample_page) "rocq" 10 fresh)
  = Return
      [mkSearchResult "One" "https://one.example/" "first" 1;
       mkSearchResult "Two" "https://real.example/page" "" 2;
       mkSearchResult "Three"
         "https://duckduckgo.com/l/?uddg=https%3A%2F%2Fthree.example%2F" "third" 3].
Proof. vm_compute. reflexivity. Qed.

Example search_timeout :
  search (failing 0 (TimeoutException "timed out")) "rocq" 10 fresh
  = (Return [],
     mkState (mkRateLimiter 30 [0])
       [(CtxInfo, "Searching DuckDuckGo for: rocq");
        (CtxError, "Search request timed out")]).
Proof. vm_compute. reflexivity. Qed.

(** C9.  With [max_results] zero or negative, a call that fetches a page
    with at least one element that has a title link without the ad marker
    returns exactly one result: the first accepted element, at
    position 1. *)
Theorem search_nonpositive_max_one_result
    (w : World) (query : string) (max_results : Z) (st : State)
    (soup : Soup) (e : ResultElem) (h : string) :
  fetched w query st soup ->
  max_results <= 0 ->
  In e (select_result soup) ->
  raw_link e = Some h ->
  contains "y.js" h = false ->
  exists r st',
    search w query max_results st = (Return [r], st') /\
    position r = 1 /\
    hd_error (accepted (select_result soup)) = Some (fields r).
Proof.
  intros Hf Hmax He Hl Had.
  destruct (search_fetched w query max_results st soup Hf) as (st' & Hs).
  pose proof (accepted_nonempty _ _ _ He Hl Had) as Hne.
  replace (Z.max 1 max_results) with 1 in Hs by lia.
  destruct (accepted (select_result soup)) as [|[[t l] s] xs]; [congruence|].
  exists (mkSearchResult t l s 1), st'. split; [exact Hs|].
  split; reflexivity.
Qed.

Lemma search_nonpositive_max_one_result_witness :
  fetched (serving 0 "" sample_page) "rocq" fresh sample_page /\
  -3 <= 0 /\
  In (entry "One" "https://one.example/" "first") (select_result sample_page) /\
  raw_link (entry "One" "https://one.example/" "first")
    = Some "https://one.example/" /\
  contains "y.js" "https://one.example/" = false /\
  exists r st',
    search (serving 0 "" sample_page) "rocq" (-3) fresh = (Return [r], st') /\
    position r = 1 /\
    hd_error (accepted (select_result sample_page)) = Some (fields r).
Proof.
  assert (Hf : fetched (serving 0 "" sample_page) "rocq" fresh sample_page).
  { split; [exists 0; reflexivity|].
    split; [|split; [reflexivity | intros msg; reflexivity]].
    exists (mkResponse (Return tt) ""). repeat split. }
  assert (Hin : In (entry "One" "https://one.example/" "first")
                  (select_result sample_page)) by (left; reflexivity).
  split; [exact Hf|]. split; [lia|]. split; [exact Hin|].
  split; [reflexivity|]. split; [reflexivity|].
  apply (search_nonpositive_max_one_result (serving 0 "" sample_page) "rocq"
           (-3) fresh sample_page (entry "One" "https://one.example/" "first")
           "https://one.example/" Hf);
    [lia | exact Hin | reflexivity | reflexivity].
Defined.

(** C10.  Every result that [search] returns from a fetched page comes
    from an element of the page whose link, unless it starts with exactly
    [//duckduckgo.com/l/?uddg=], is the link of the result, unchanged. *)
Theorem unwrap_only_exact_prefix
    (w : World) (query : string) (max_results : Z) (st st' : State)
    (soup : Soup) (results : list SearchResult) (r : SearchResult) :
  fetched w query st soup ->
  search w query max_results st = (Return results, st') ->
  In r results ->
  exists e h,
    In e (select_result soup) /\
    extract e = Return (Some (fields r)) /\
    raw_link e = Some h /\
    (startswith h "//duckduckgo.com/l/?uddg=" = false -> link r = h).
Proof.
  intros Hf Hs Hr.
  destruct (search_provenance _ _ _ _ _ _ _ _ Hf Hs Hr) as (e & He & Hx).
  destruct (extract_accepts _ _ _ _ Hx)
    as (h & _ & Hl & _ & _ & [(_ & Hv) | (rest & -> & _)]).
  - exists e, h. repeat split; auto.
  - exists e, ("//duckduckgo.com/l/?uddg=" ++ rest). repeat split; auto.
    intros Hp. discriminate Hp.
Qed.

Lemma unwrap_only_exact_prefix_witness :
  fetched (serving 0 "" wrapped_page) "rocq" fresh wrapped_page /\
  search (serving 0 "" wrapped_page) "rocq" 10 fresh
  = (Return
       [mkSearchResult "Scheme"
          "https://duckduckgo.com/l/?uddg=https%3A%2F%2Freal.example%2Fpage" "" 1;
        mkSearchResult "Host"
          "//provider.example/l/?uddg=https%3A%2F%2Freal.example%2Fpage&extra=1" "" 2],
     snd (search (serving 0 "" wrapped_page) "rocq" 10 fresh)) /\
  exists e h,
    In e (select_result wrapped_page) /\
    extract e
    = Return (Some (fields
        (mkSearchResult "Host"
           "//provider.example/l/?uddg=https%3A%2F%2Freal.example%2Fpage&extra=1" "" 2))) /\
    raw_link e = Some h /\
    (startswith h "//duckduckgo.com/l/?uddg=" = false ->
     "//provider.example/l/?uddg=https%3A%2F%2Freal.example%2Fpage&extra=1" = h).
Proof.
  assert (Hf : fetched (serving 0 "" wrapped_page) "rocq" fresh wrapped_page).
  { split; [exists 0; reflexivity|].
    split; [|split; [reflexivity | intros msg; reflexivity]].
    exists (mkResponse (Return tt) ""). repeat split. }
  split; [exact Hf|].
  assert (Hs : search (serving 0 "" wrapped_page) "rocq" 10 fresh
    = (Return
         [mkSearchResult "Scheme"
            "https://duckduckgo.com/l/?uddg=https%3A%2F%2Freal.example%2Fpage" "" 1;
          mkSearchResult "Host"
            "//provider.example/l/?uddg=https%3A%2F%2Freal.example%2Fpage&extra=1" "" 2],
       snd (search (serving 0 "" wrapped_page) "rocq" 10 fresh)))
    by (vm_compute; reflexivity).
  split; [exact Hs|].
  apply (unwrap_only_exact_prefix _ _ _ _ _ _ _
           (mkSearchResult "Host"
              "//provider.example/l/?uddg=https%3A%2F%2Freal.example%2Fpage&extra=1" "" 2)
           Hf Hs).
  right. left. reflexivity.
Defined.

(** C6 as stated fails: a redirect link that writes the marker
    percent-encoded ([y%2Ejs]) passes the ad test, which reads the link as
    the markup has it, and is then decoded; the result returned has a link
    that contains [y.js]. *)
Lemma ad_marker_in_returned_link :
  exists r st',
    search (serving 0 "" encoded_ad_page) "rocq" 10 fresh = (Return [r], st') /\
    link r = "https://ads.example/y.js" /\
    contains "y.js" (link r) = true.
Proof. do 2 eexists. split; [vm_compute; reflexivity|]. split; reflexivity. Qed.

(** C6, amended.  An element whose link, as the markup has it, contains
    [y.js] never gives a result, wherever it stands in the page: every
    result of a call that fetched a page comes from an element whose link
    in the markup is free of the marker, and the results are those of the
    loop run on the page with the marked elements taken out, so that these
    count neither toward [max_results] nor toward positions.  A returned
    link can contain the marker only where it was unwrapped from a
    redirect link. *)
Theorem ads_in_markup_excluded
    (w : World) (query : string) (max_results : Z) (st : State) (soup : Soup) :
  fetched w query st soup ->
  exists results st',
    search w query max_results st = (Return results, st') /\
    scan max_results
      (filter (fun e => negb (ad_marked e)) (select_result soup)) []
    = Return results /\
    Forall
      (fun r =>
         exists e h,
           In e (select_result soup) /\
           extract e = Return (Some (fields r)) /\
           raw_link e = Some h /\
           contains "y.js" h = false /\
           (contains "y.js" (link r) = true ->
            startswith h "//duckduckgo.com/l/?uddg=" = true))
      results.
Proof.
  intros Hf.
  destruct (search_fetched w query max_results st soup Hf) as (st' & Hs).
  eexists. exists st'. split; [exact Hs|]. split.
  - rewrite scan_numbered, accepted_without_ads. reflexivity.
  - apply Forall_forall. intros r Hr.
    destruct (search_provenance _ _ _ _ _ _ _ _ Hf Hs Hr) as (e & He & Hx).
    destruct (extract_accepts _ _ _ _ Hx)
      as (h & _ & Hl & _ & Had & [(_ & Hv) | (rest & -> & _)]).
    + exists e, h. repeat split; auto. rewrite Hv. congruence.
    + exists e, ("//duckduckgo.com/l/?uddg=" ++ rest). repeat split; auto.
Qed.

Lemma ads_in_markup_excluded_witness :
  fetched (serving 0 "" sample_page) "rocq" fresh sample_page /\
  exists st',
    search (serving 0 "" sample_page) "rocq" 2 fresh
    = (Return
         [mkSearchResult "One" "https://one.example/" "first" 1;
          mkSearchResult "Two" "https://real.example/page" "" 2], st').
Proof.
  assert (Hf : fetched (serving 0 "" sample_page) "rocq" fresh sample_page).
  { split; [exists 0; reflexivity|].
    split; [|split; [reflexivity | intros msg; reflexivity]].
    exists (mkResponse (Return tt) ""). repeat split. }
  split; [exact Hf|].
  destruct (ads_in_markup_excluded (serving 0 "" sample_page) "rocq" 2 fresh
              sample_page Hf) as (results & st' & Hs & Hscan & _).
  exists st'. rewrite Hs. f_equal.
  assert (Hc : scan 2 (filter (fun e => negb (ad_marked e))
                    (select_result sample_page)) []
               = Return
                   [mkSearchResult "One" "https://one.example/" "first" 1;
                    mkSearchResult "Two" "https://real.example/page" "" 2])
    by (vm_compute; reflexivity).
  congruence.
Defined.

(** C7 as stated fails: the link of the scenario,
    [//provider.example/l/?uddg=https%3A%2F%2Freal.example%2Fpage&extra=1],
    does not start with [//duckduckgo.com/l/?uddg=] and is returned as it
    is, not as [https://real.example/page]. *)
Lemma provider_redirect_not_unwrapped :
  exists r1 r2 st',
    search (serving 0 "" wrapped_page) "rocq" 10 fresh = (Return [r1; r2], st') /\
    link r2 = "//provider.example/l/?uddg=https%3A%2F%2Freal.example%2Fpage&extra=1" /\
    link r2 <> "https://real.example/page".
Proof.
  do 3 eexists. split; [vm_compute; reflexivity|].
  split; [reflexivity | discriminate].
Qed.

Example destination_page :
  destination "https%3A%2F%2Freal.example%2Fpage&extra=1"
  = "https://real.example/page".
Proof. reflexivity. Qed.

(** The value is cut at a further [uddg=] as well as at [&]. *)
Example destination_cut :
  destination "https%3A%2F%2Fa.example%2F%3Fuddg=x&y" = "https://a.example/?".
Proof. reflexivity. Qed.

(** C7, amended.  Every result that [search] returns from a fetched page
    comes from an element of the page, and when the link of that element
    is [//duckduckgo.com/l/?uddg=] followed by [rest], the link of the
    result is [rest] up to its first [uddg=] or [&], percent-decoded; so
    [//duckduckgo.com/l/?uddg=https%3A%2F%2Freal.example%2Fpage&extra=1]
    is returned as [https://real.example/page]. *)
Theorem redirect_links_unwrapped
    (w : World) (query : string) (max_results : Z) (st st' : State)
    (soup : Soup) (results : list SearchResult) (r : SearchResult) :
  fetched w query st soup ->
  search w query max_results st = (Return results, st') ->
  In r results ->
  exists e h,
    In e (select_result soup) /\
    extract e = Return (Some (fields r)) /\
    raw_link e = Some h /\
    (forall rest,
        h = "//duckduckgo.com/l/?uddg=" ++ rest -> link r = destination rest).
Proof.
  intros Hf Hs Hr.
  destruct (search_provenance _ _ _ _ _ _ _ _ Hf Hs Hr) as (e & He & Hx).
  destruct (extract_accepts _ _ _ _ Hx)
    as (h & _ & Hl & _ & _ & [(Hp & _) | (rest & -> & Hv)]).
  - exists e, h. repeat split; auto.
    intros rest ->. discriminate Hp.
  - exists e, ("//duckduckgo.com/l/?uddg=" ++ rest). repeat split; auto.
    intros rest' Heq. rewrite Hv. f_equal.
    revert Heq. clear. cbn [String.append]. intros [= ->]. reflexivity.
Qed.

Lemma redirect_links_unwrapped_witness :
  fetched (serving 0 "" sample_page) "rocq" fresh sample_page /\
  search (serving 0 "" sample_page) "rocq" 2 fresh
  = (Return
       [mkSearchResult "One" "https://one.example/" "first" 1;
        mkSearchResult "Two" "https://real.example/page" "" 2],
     snd (search (serving 0 "" sample_page) "rocq" 2 fresh)) /\
  exists e h,
    In e (select_result sample_page) /\
    extract e
    = Return (Some (fields (mkSearchResult "Two" "https://real.example/page" "" 2))) /\
    raw_link e = Some h /\
    (forall rest,
        h = "//duckduckgo.com/l/?uddg=" ++ rest ->
        "https://real.example/page" = destination rest).
Proof.
  assert (Hf : fetched (serving 0 "" sample_page) "rocq" fresh sample_page).
  { split; [exists 0; reflexivity|].
    split; [|split; [reflexivity | intros msg; reflexivity]].
    exists (mkResponse (Return tt) ""). repeat split. }
  split; [exact Hf|].
  assert (Hs : search (serving 0 "" sample_page) "rocq" 2 fresh
    = (Return
         [mkSearchResult "One" "https://one.example/" "first" 1;
          mkSearchResult "Two" "https://real.example/page" "" 2],
       snd (search (serving 0 "" sample_page) "rocq" 2 fresh)))
    by (vm_compute; reflexivity).
  split; [exact Hs|].
  apply (redirect_links_unwrapped _ _ _ _ _ _ _
           (mkSearchResult "Two" "https://real.example/page" "" 2) Hf Hs).
  right. left. reflexivity.
Defined.

(** ** The report *)

Lemma output_items (rs : list SearchResult) :
  forall output,
    fold_left
      (fun output result =>
         append
           (append
              (append
                 (append output
                    (str_of_int (position result) ++ ". " ++ title result))
                 ("   URL: " ++ link result))
              ("   Summary: " ++ snippet result))
           "")
      rs output
    = (output ++ flat_map items rs)%list.
Proof.
  induction rs as [|r rs IH]; intros output.
  - simpl. now rewrite app_nil_r.
  - cbn [fold_left flat_map]. rewrite IH. unfold append, items.
    now rewrite <- !app_assoc.
Qed.

Lemma join_items (rs : list SearchResult) :
  forall head, join LF (head :: flat_map items rs) = head ++ blocks rs.
Proof.
  induction rs as [|r rs IH]; intros head.
  - simpl. now rewrite string_app_nil_r.
  - cbn [flat_map items app blocks].
    change (join LF (head :: ?a :: ?b :: ?c :: ?d :: ?rest))
      with (head ++ LF ++ a ++ LF ++ b ++ LF ++ c ++ LF ++ join LF (d :: rest)).
    rewrite IH. unfold block.
    rewrite !string_app_assoc. reflexivity.
Qed.

(** C8.  [format_results_for_llm] is a function of every list: for the
    empty list it gives the fixed advisory; for a list with a first result
    it gives the header with the number of results and then, in the order
    of the list, the block of each result: an empty line, the line with
    position and title, the line with the link, the line with the snippet.
    A result with an empty snippet has its summary line, with nothing
    after the label. *)
Theorem format_results_report :
  format_results_for_llm []
  = "No results were found for your search query. This could be due to DuckDuckGo's bot detection or the query returned no matches. Please try rephrasing your search or try again in a few minutes."
  /\ (forall r rs,
        format_results_for_llm (r :: rs)
        = "Found " ++ str_of_int (len (r :: rs)) ++ " search results:" ++ LF
          ++ blocks (r :: rs))
  /\ (forall t l p,
        block (mkSearchResult t l "" p)
        = LF ++ str_of_int p ++ ". " ++ t ++ LF
          ++ "   URL: " ++ l ++ LF
          ++ "   Summary: " ++ LF).
Proof.
  split; [reflexivity|]. split.
  - intros r rs. unfold format_results_for_llm.
    rewrite output_items. unfold append at 1. cbn [app].
    rewrite join_items. now rewrite !string_app_assoc.
  - intros t l p. reflexivity.
Qed.

Example format_two :
  format_results_for_llm
    [mkSearchResult "Rocq" "https://rocq-prover.org/" "A proof assistant" 1;
     mkSearchResult "Docs" "https://rocq-prover.org/docs" "" 2]
  = "Found 2 search results:" ++ LF ++ LF
    ++ "1. Rocq" ++ LF
    ++ "   URL: https://rocq-prover.org/" ++ LF
    ++ "   Summary: A proof assistant" ++ LF ++ LF
    ++ "2. Docs" ++ LF
    ++ "   URL: https://rocq-prover.org/docs" ++ LF
    ++ "   Summary: " ++ LF.
Proof. reflexivity. Qed.

(** ** The registered tool *)

(** With a logging context that takes every line, the tool answers a call
    with a report, and with the advisory when no page was fetched. *)
Lemma tool_search_text (w : World) (query : string) (max_results : Z) (st : State) :
  logs_info w -> logs_errors w ->
  exists report st',
    Server.search w query max_results st = (Return report, st') /\
    ((forall soup, ~ fetched w query st soup) ->
     report = format_results_for_llm []).
Proof.
  intros Hinfo Herr. unfold Server.search, try_except, bind, ret.
  destruct (search_cases w query max_results st Hinfo Herr)
    as (st' & [(soup & Hf & ->) | (Hno & ->)]).
  - eexists. exists st'. split; [reflexivity|].
    intros Hno. destruct (Hno _ Hf).
  - eexists. exists st'. split; reflexivity.
Qed.

Example tool_search_timeout :
  fst (Server.search (failing 0 (TimeoutException "timed out")) "rocq" 10 fresh)
  = Return (format_results_for_llm []).
Proof. vm_compute. reflexivity. Qed.

(** * Further properties of the server *)

Import Notions.

(** ** The rate limiter, call by call *)

Lemma retained_recent (now : Z) (l : list Z) :
  Forall (fun req => now - req < minute) (filter (fun req => now - req <? minute) l).
Proof.
  apply Forall_forall. intros req Hin.
  apply filter_In in Hin as [_ H]. now apply Z.ltb_lt in H.
Qed.

(** X1.  With a ceiling of at least one, [acquire] raises nothing: it
    returns after a sleep that is never negative, keeps the ceiling, and
    leaves as entries those of the last minute followed by the clock
    reading of this call. *)
Theorem acquire_with_ceiling (now : Z) (self : RateLimiter) :
  1 <= requests_per_minute self ->
  exists slept,
    acquire now self
    = (Return slept,
       mkRateLimiter (requests_per_minute self)
         (filter (fun req => now - req <? minute) (requests self) ++ [now])%list)
    /\ 0 <= slept.
Proof.
  intros Hc. unfold acquire. cbn [requests requests_per_minute].
  destruct (len _ >=? _) eqn:Hfull.
  - apply geb_le in Hfull.
    destruct (filter _ (requests self)) as [|oldest kept] eqn:Hkept.
    + unfold len in Hfull. simpl in Hfull. lia.
    + cbn [getitem nth_error].
      destruct (minute - (now - oldest) >? 0) eqn:Hw.
      * exists (minute - (now - oldest)). split; [reflexivity|].
        apply Z.gtb_lt in Hw. lia.
      * exists 0. split; [reflexivity | lia].
  - exists 0. split; [reflexivity | lia].
Qed.

Lemma acquire_with_ceiling_witness :
  1 <= requests_per_minute (mkRateLimiter 2 [0; 30 * second]) /\
  exists slept,
    acquire (70 * second) (mkRateLimiter 2 [0; 30 * second])
    = (Return slept, mkRateLimiter 2 [30 * second; 70 * second])
    /\ 0 <= slept.
Proof.
  split; [cbn; lia|].
  apply (acquire_with_ceiling (70 * second) (mkRateLimiter 2 [0; 30 * second])).
  cbn. lia.
Defined.

(** X2.  A call that finds the ceiling reached sleeps: the wait computed
    from the first retained entry is always positive, because that entry
    is less than a minute old; and it is at most a minute when that entry
    is not in the future. *)
Theorem acquire_full_sleeps (now : Z) (self self' : RateLimiter) (slept : Z) :
  acquire now self = (Return slept, self') ->
  requests_per_minute self
    <= len (filter (fun req => now - req <? minute) (requests self)) ->
  exists oldest kept,
    filter (fun req => now - req <? minute) (requests self) = oldest :: kept /\
    slept = minute - (now - oldest) /\
    0 < slept /\
    (oldest <= now -> slept <= minute).
Proof.
  intros Ha Hfull. pose proof (retained_recent now (requests self)) as Hrecent.
  apply (f_equal fst) in Ha. revert Ha.
  unfold acquire. cbn [requests requests_per_minute].
  apply geb_le in Hfull. rewrite Hfull.
  destruct (filter _ (requests self)) as [|oldest kept].
  - cbn [getitem nth_error fst]. discriminate.
  - cbn [getitem nth_error]. apply Forall_inv in Hrecent.
    replace (minute - (now - oldest) >? 0) with true
      by (symmetry; apply Z.gtb_lt; lia).
    cbn [fst]. intros Hs.
    assert (slept = minute - (now - oldest)) as -> by congruence.
    exists oldest, kept. repeat split; lia.
Qed.

Lemma acquire_full_sleeps_witness :
  acquire (70 * second) (mkRateLimiter 1 [0; 30 * second])
  = (Return (20 * second), mkRateLimiter 1 [30 * second; 70 * second]) /\
  requests_per_minute (mkRateLimiter 1 [0; 30 * second])
    <= len (filter (fun req => 70 * second - req <? minute) [0; 30 * second]) /\
  exists oldest kept,
    filter (fun req => 70 * second - req <? minute) [0; 30 * second] = oldest :: kept /\
    20 * second = minute - (70 * second - oldest) /\
    0 < 20 * second /\
    (oldest <= 70 * second -> 20 * second <= minute).
Proof.
  assert (Ha : acquire (70 * second) (mkRateLimiter 1 [0; 30 * second])
               = (Return (20 * second), mkRateLimiter 1 [30 * second; 70 * second]))
    by (vm_compute; reflexivity).
  assert (Hfull : requests_per_minute (mkRateLimiter 1 [0; 30 * second])
                  <= len (filter (fun req => 70 * second - req <? minute)
                            (requests (mkRateLimiter 1 [0; 30 * second]))))
    by (vm_compute; discriminate).
  split; [exact Ha|]. split; [exact Hfull|].
  exact (acquire_full_sleeps _ _ _ _ Ha Hfull).
Defined.

(** X3.  When a call returns, every entry the limiter holds is less than
    a minute older than the clock reading of the call: entries are pruned
    on every call, also on the calls that sleep. *)
Theorem acquire_keeps_last_minute (now : Z) (self self' : RateLimiter) (slept : Z) :
  acquire now self = (Return slept, self') ->
  Forall (fun req => now - req < minute) (requests self') /\
  requests_per_minute self' = requests_per_minute self.
Proof.
  intros Ha. split.
  - rewrite (acquire_appends_now _ _ _ _ Ha).
    apply Forall_app. split; [apply retained_recent|].
    constructor; [|constructor]. unfold minute. lia.
  - apply (f_equal snd) in Ha. cbn [snd] in Ha. subst self'.
    unfold acquire. cbn [requests requests_per_minute].
    destruct (len _ >=? _); [|reflexivity].
    destruct (getitem _ 0); [|reflexivity].
    destruct (minute - _ >? 0); reflexivity.
Qed.

Lemma acquire_keeps_last_minute_witness :
  acquire (70 * second) (mkRateLimiter 2 [0; 30 * second])
  = (Return 0, mkRateLimiter 2 [30 * second; 70 * second]) /\
  Forall (fun req => 70 * second - req < minute) [30 * second; 70 * second] /\
  requests_per_minute (mkRateLimiter 2 [30 * second; 70 * second])
  = requests_per_minute (mkRateLimiter 2 [0; 30 * second]).
Proof.
  assert (Ha : acquire (70 * second) (mkRateLimiter 2 [0; 30 * second])
               = (Return 0, mkRateLimiter 2 [30 * second; 70 * second]))
    by (vm_compute; reflexivity).
  split; [exact Ha|].
  exact (acquire_keeps_last_minute _ _ _ _ Ha).
Defined.

Lemma filter_sorted (p : Z -> bool) (l : list Z) :
  StronglySorted Z.le l -> StronglySorted Z.le (filter p l).
Proof.
  induction 1 as [|x l Hs IH Hx]; cbn [filter]; [constructor|].
  destruct (p x); [|exact IH].
  constructor; [exact IH|].
  apply Forall_forall. intros y Hy. apply filter_In in Hy as [Hy _].
  revert y Hy. now apply Forall_forall.
Qed.

Lemma snoc_sorted (l : list Z) (x : Z) :
  StronglySorted Z.le l -> Forall (fun y => y <= x) l ->
  StronglySorted Z.le (l ++ [x]).
Proof.
  induction 1 as [|y l Hs IH Hy]; intros Hle; cbn [app].
  - constructor; constructor.
  - constructor.
    + apply IH. now apply Forall_inv_tail in Hle.
    + apply Forall_app. split; [exact Hy|].
      constructor; [|constructor]. now apply Forall_inv in Hle.
Qed.

(** X4.  The limiter keeps its entries in the order of the clock: when
    the entries are in non-decreasing order and none is later than the
    clock reading of the call, the same holds when the call returns.  So
    the first retained entry, from which the wait is computed, is the
    oldest. *)
Theorem acquire_keeps_order (now : Z) (self self' : RateLimiter) (slept : Z) :
  StronglySorted Z.le (requests self) ->
  Forall (fun req => req <= now) (requests self) ->
  acquire now self = (Return slept, self') ->
  StronglySorted Z.le (requests self') /\
  Forall (fun req => req <= now) (requests self').
Proof.
  intros Hs Hle Ha. rewrite (acquire_appends_now _ _ _ _ Ha).
  assert (Hkept : Forall (fun req => req <= now)
                    (filter (fun req => now - req <? minute) (requests self))).
  { apply Forall_forall. intros y Hy. apply filter_In in Hy as [Hy _].
    revert y Hy. now apply Forall_forall. }
  split.
  - apply snoc_sorted; [now apply filter_sorted | exact Hkept].
  - apply Forall_app. split; [exact Hkept|].
    constructor; [lia | constructor].
Qed.

Lemma acquire_keeps_order_witness :
  StronglySorted Z.le (requests (mkRateLimiter 2 [0; 30 * second])) /\
  Forall (fun req => req <= 70 * second) (requests (mkRateLimiter 2 [0; 30 * second])) /\
  acquire (70 * second) (mkRateLimiter 2 [0; 30 * second])
  = (Return 0, mkRateLimiter 2 [30 * second; 70 * second]) /\
  StronglySorted Z.le [30 * second; 70 * second] /\
  Forall (fun req => req <= 70 * second) [30 * second; 70 * second].
Proof.
  assert (Hs : StronglySorted Z.le (requests (mkRateLimiter 2 [0; 30 * second]))).
  { cbn [requests]. repeat constructor; vm_compute; discriminate. }
  assert (Hle : Forall (fun req => req <= 70 * second)
                  (requests (mkRateLimiter 2 [0; 30 * second]))).
  { cbn [requests]. repeat constructor; vm_compute; discriminate. }
  assert (Ha : acquire (70 * second) (mkRateLimiter 2 [0; 30 * second])
               = (Return 0, mkRateLimiter 2 [30 * second; 70 * second]))
    by (vm_compute; reflexivity).
  split; [exact Hs|]. split; [exact Hle|]. split; [exact Ha|].
  exact (acquire_keeps_order _ _ _ _ Hs Hle Ha).
Defined.

(** ** What a search leaves behind *)

(** X5.  Every call of [search] passes through the limiter first, and
    what the limiter holds after the call is what [acquire] left, whatever
    became of the request: a search that fails on the network or on the
    page uses up a slot like one that succeeds. *)
Theorem search_records_request
    (w : World) (query : string) (max_results : Z) (st : State) :
  rate_limiter (snd (search w query max_results st))
  = snd (acquire (now w) (rate_limiter st)).
Proof.
  search_paths; search_handler; reflexivity.
Qed.

(** X6.  When the request, the status check or the parser raises, and
    the logging context takes every line, the call writes the line that
    announces the search and then the diagnostic of the exception's
    class, and nothing else: a timeout is
    reported as a timeout although it is an [httpx.HTTPError] too, any
    other [httpx] error with its text, and anything else as unexpected,
    with a traceback on [sys.stderr]. *)
Theorem search_failure_diagnostics
    (w : World) (query : string) (max_results : Z) (st : State)
    (slept : Z) (e : exc) :
  logs_info w -> logs_errors w ->
  fst (acquire (now w) (rate_limiter st)) = Return slept ->
  (post w (request query) = Raise e \/
   exists response,
     post w (request query) = Return response /\
     (raise_for_status response = Raise e \/
      (raise_for_status response = Return tt /\
       BeautifulSoup w (text response) = Raise e))) ->
  written (snd (search w query max_results st))
  = app (written st)
      ((CtxInfo, "Searching DuckDuckGo for: " ++ query) :: diagnostic e).
Proof.
  intros Hinfo Herr Ha Hfail. run_search.
  destruct (acquire (now w) (rate_limiter st)) as [r rl].
  cbn [fst] in Ha. subst r. cbn [rate_limiter written].
  rewrite Hinfo.
  destruct Hfail as [Hp | (response & Hp & [Hs | (Hs & Hb)])];
    rewrite Hp; try rewrite Hs; try rewrite Hb;
    destruct e; cbn [is_TimeoutException is_HTTPError exc_str];
    rewrite Herr;
    cbn [diagnostic snd written];
    unfold append; rewrite <- ?app_assoc; reflexivity.
Qed.

Lemma search_failure_diagnostics_witness :
  logs_info (failing 0 (HTTPError "503")) /\
  logs_errors (failing 0 (HTTPError "503")) /\
  fst (acquire (now (failing 0 (HTTPError "503"))) (rate_limiter fresh)) = Return 0 /\
  post (failing 0 (HTTPError "503")) (request "rocq") = Raise (HTTPError "503") /\
  written (snd (search (failing 0 (HTTPError "503")) "rocq" 10 fresh))
  = [(CtxInfo, "Searching DuckDuckGo for: rocq");
     (CtxError, "HTTP error occurred: 503")].
Proof.
  assert (Hinfo : logs_info (failing 0 (HTTPError "503")))
    by (intros msg; reflexivity).
  assert (Herr : logs_errors (failing 0 (HTTPError "503")))
    by (intros msg; reflexivity).
  split; [exact Hinfo|]. split; [exact Herr|].
  split; [reflexivity|]. split; [reflexivity|].
  apply (search_failure_diagnostics (failing 0 (HTTPError "503")) "rocq" 10
           fresh 0 (HTTPError "503") Hinfo Herr); [reflexivity | left; reflexivity].
Defined.

(** X7.  A call that fetches a page writes two lines, the one that
    announces the search and one that gives the number of results, and
    that number is the length of the list returned. *)
Theorem search_success_log
    (w : World) (query : string) (max_results : Z) (st : State) (soup : Soup) :
  fetched w query st soup ->
  exists results st',
    search w query max_results st = (Return results, st') /\
    written st'
    = app (written st)
        [(CtxInfo, "Searching DuckDuckGo for: " ++ query);
         (CtxInfo, "Successfully found " ++ str_of_int (len results) ++ " results")].
Proof.
  intros ((slept & Ha) & (response & Hp & Hs & Hb) & Ht & Hi).
  run_search.
  destruct (acquire (now w) (rate_limiter st)) as [r rl].
  cbn [fst] in Ha. subst r. cbn [rate_limiter written].
  rewrite Hi, Hp, Hs, Hb, Ht. cbn [negb]. rewrite scan_numbered, Hi.
  do 2 eexists. split; [reflexivity|].
  cbn [written]. unfold append. now rewrite <- app_assoc.
Qed.

Lemma search_success_log_witness :
  fetched (serving 0 "" sample_page) "rocq" fresh sample_page /\
  exists results st',
    search (serving 0 "" sample_page) "rocq" 10 fresh = (Return results, st') /\
    written st'
    = app (written fresh)
        [(CtxInfo, "Searching DuckDuckGo for: " ++ "rocq");
         (CtxInfo, "Successfully found " ++ str_of_int (len results) ++ " results")].
Proof.
  assert (Hf : fetched (serving 0 "" sample_page) "rocq" fresh sample_page).
  { split; [exists 0; reflexivity|].
    split; [|split; [reflexivity | intros msg; reflexivity]].
    exists (mkResponse (Return tt) ""). repeat split. }
  split; [exact Hf|].
  exact (search_success_log _ _ 10 _ _ Hf).
Defined.

(** ** The loop and the limit *)

Lemma firstn_extends {A} (m : nat) :
  forall (m' : nat) (l : list A),
    (m <= m')%nat -> exists more, firstn m' l = (firstn m l ++ more)%list.
Proof.
  induction m as [|m IH]; intros m' l Hle.
  - exists (firstn m' l). reflexivity.
  - destruct m' as [|m']; [lia|].
    destruct l as [|x l]; [exists []; reflexivity|].
    assert (Hle' : (m <= m')%nat) by lia.
    destruct (IH m' l Hle') as [more Hmore].
    exists more. cbn [firstn app]. now rewrite Hmore.
Qed.

Lemma numbered_app (a b : list (string * string * string)) :
  forall n, numbered n (a ++ b) = (numbered n a ++ numbered (n + len a) b)%list.
Proof.
  induction a as [|[[t l] s] a IH]; intros n.
  - cbn [app numbered]. unfold len. cbn. now rewrite Z.add_0_r.
  - cbn [app numbered]. rewrite IH.
    assert (E : n + 1 + len a = n + len ((t, l, s) :: a))
      by (unfold len; cbn [List.length]; lia).
    now rewrite E.
Qed.

(** X8.  Asking for more results only extends the list: for limits
    [0 < m <= m'], and a logging context that takes every line, the
    results for [m'] begin with the results for [m], positions
    included. *)
Theorem search_more_results_extend
    (w : World) (query : string) (st : State) (m m' : Z) :
  0 < m -> m <= m' ->
  logs_info w -> logs_errors w ->
  exists results more st1 st2,
    search w query m st = (Return results, st1) /\
    search w query m' st = (Return (results ++ more)%list, st2).
Proof.
  intros Hm Hle Hinfo Herr.
  destruct (search_cases w query m st Hinfo Herr)
    as (st1 & [(soup & Hf & Hs) | (Hno & Hs)]).
  - destruct (search_fetched w query m' st soup Hf) as (st2 & Hs').
    assert (Hnat : (Z.to_nat (Z.max 1 m) <= Z.to_nat (Z.max 1 m'))%nat) by lia.
    destruct (firstn_extends _ _ (accepted (select_result soup)) Hnat)
      as [more Hmore].
    rewrite Hmore, numbered_app in Hs'. eauto 6.
  - destruct (search_cases w query m' st Hinfo Herr)
      as (st2 & [(soup & Hf & _) | (_ & Hs')]).
    + destruct (Hno _ Hf).
    + exists [], [], st1, st2. split; assumption.
Qed.

Lemma search_more_results_extend_witness :
  0 < 1 /\ 1 <= 2 /\
  logs_info (serving 0 "" sample_page) /\
  logs_errors (serving 0 "" sample_page) /\
  exists results more st1 st2,
    search (serving 0 "" sample_page) "rocq" 1 fresh = (Return results, st1) /\
    search (serving 0 "" sample_page) "rocq" 2 fresh
    = (Return (results ++ more)%list, st2).
Proof.
  assert (Hinfo : logs_info (serving 0 "" sample_page))
    by (intros msg; reflexivity).
  assert (Herr : logs_errors (serving 0 "" sample_page))
    by (intros msg; reflexivity).
  split; [lia|]. split; [lia|]. split; [exact Hinfo|]. split; [exact Herr|].
  apply (search_more_results_extend (serving 0 "" sample_page) "rocq" fresh 1 2);
    [lia | lia | exact Hinfo | exact Herr].
Defined.

Lemma accepted_titled (elems : list ResultElem) :
  accepted
    (filter (fun e => match raw_link e with Some _ => true | None => false end) elems)
  = accepted elems.
Proof.
  induction elems as [|e elems IH]; [reflexivity|].
  cbn [filter]. destruct (raw_link e) as [h|] eqn:Hl.
  - cbn [accepted flat_map]. f_equal. exact IH.
  - cbn [accepted flat_map]. rewrite (extract_no_anchor _ Hl). exact IH.
Qed.

(** X9.  Elements without a title, or whose title has no anchor, are
    passed over without a trace: the loop gives the same results, with the
    same positions and the same cut at [max_results], on the page and on
    the page with those elements taken out. *)
Theorem scan_skips_untitled
    (max_results : Z) (elems : list ResultElem) (results : list SearchResult) :
  scan max_results
    (filter (fun e => match raw_link e with Some _ => true | None => false end) elems)
    results
  = scan max_results elems results.
Proof. rewrite !scan_spec, accepted_titled. reflexivity. Qed.

(** X10.  The loop raises nothing on any page: the only indexing that
    could fail, [link.split("uddg=")[1]], is reached only for a link that
    starts with [//duckduckgo.com/l/?uddg=] and so has a second piece.
    The loop returns the results it was started with followed by those it
    adds. *)
Theorem scan_never_raises
    (max_results : Z) (elems : list ResultElem) (results : list SearchResult) :
  exists added, scan max_results elems results = Return (results ++ added)%list.
Proof. rewrite scan_spec. eauto. Qed.

(** ** The registered tool *)



(** * Properties of the bot *)

Import Bot BotNotions.

(** ** Characters of a text *)

Lemma text_of_chars (s : string) : text_of (chars s) = s.
Proof.
  induction s as [|b s IH]; [reflexivity|].
  cbn [chars]. destruct (chars s) as [|[|b' t] more].
  - cbn [text_of] in *. now rewrite <- IH.
  - cbn [text_of] in *. now rewrite <- IH.
  - destruct (Urllib.is_continuation b'); cbn [text_of] in *; now rewrite <- IH.
Qed.

Lemma inner_is_character (c : string) : inner_character c -> character c.
Proof. destruct c as [|b t]; [tauto | now intros [_ H]]. Qed.

Lemma inner_characters (cs : list string) :
  Forall inner_character cs -> characters cs.
Proof.
  destruct 1 as [|c cs Hc Hcs]; [exact I|].
  split; [now apply inner_is_character | exact Hcs].
Qed.

Lemma chars_characters (s : string) : characters (chars s).
Proof.
  induction s as [|b s IH]; [exact I|].
  cbn [chars]. destruct (chars s) as [|[|b' t] more].
  - split; [reflexivity | constructor].
  - destruct IH as [[] _].
  - destruct IH as [Ht Hmore].
    destruct (Urllib.is_continuation b') eqn:Hb'.
    + split; [|exact Hmore]. cbn. now rewrite Hb'.
    + split; [reflexivity|]. constructor; [|exact Hmore]. now split.
Qed.

(** Continuation bytes put before a text join its first character... *)
Lemma chars_continuation (t r : string) :
  continuation t = true ->
  Forall inner_character (chars r) ->
  chars (t ++ r) = match t with EmptyString => chars r | _ => t :: chars r end.
Proof.
  induction t as [|b t IH]; intros Ht Hr; [reflexivity|].
  cbn in Ht. apply andb_true_iff in Ht as [Hb Ht].
  cbn [String.append chars]. rewrite (IH Ht Hr).
  destruct t as [|b' t'].
  - destruct (chars r) as [|[|b' t'] more]; [reflexivity| |].
    + apply Forall_inv in Hr. destruct Hr.
    + apply Forall_inv in Hr. destruct Hr as [Hb' _]. now rewrite Hb'.
  - cbn in Ht. apply andb_true_iff in Ht as [Hb' _]. now rewrite Hb'.
Qed.

Lemma chars_text_of_inner (cs : list string) :
  Forall inner_character cs -> chars (text_of cs) = cs.
Proof.
  induction 1 as [|c cs Hc Hcs IH]; [reflexivity|].
  destruct c as [|b t]; [destruct Hc|]. destruct Hc as [Hb Ht].
  cbn [text_of String.append chars].
  assert (Hr : Forall inner_character (chars (text_of cs))) by now rewrite IH.
  rewrite (chars_continuation t (text_of cs) Ht Hr), IH.
  destruct t as [|b' t'].
  - destruct cs as [|[|b' t'] more]; [reflexivity| |].
    + apply Forall_inv in Hcs. destruct Hcs.
    + apply Forall_inv in Hcs. destruct Hcs as [Hb' _]. now rewrite Hb'.
  - cbn in Ht. apply andb_true_iff in Ht as [Hb' _]. now rewrite Hb'.
Qed.

(** ... and a list of characters is the cut of the text it spells. *)
Lemma chars_text_of (cs : list string) :
  characters cs -> chars (text_of cs) = cs.
Proof.
  destruct cs as [|c cs]; [reflexivity|]. intros [Hc Hcs].
  destruct c as [|b t]; [destruct Hc|]. cbn in Hc.
  cbn [text_of String.append chars].
  assert (Hr : Forall inner_character (chars (text_of cs)))
    by now rewrite chars_text_of_inner.
  rewrite (chars_continuation t (text_of cs) Hc Hr), chars_text_of_inner by exact Hcs.
  destruct t as [|b' t'].
  - destruct cs as [|[|b' t'] more]; [reflexivity| |].
    + apply Forall_inv in Hcs. destruct Hcs.
    + apply Forall_inv in Hcs. destruct Hcs as [Hb' _]. now rewrite Hb'.
  - cbn in Hc. apply andb_true_iff in Hc as [Hb' _]. now rewrite Hb'.
Qed.

Lemma characters_filter (p : string -> bool) (cs : list string) :
  characters cs -> characters (filter p cs).
Proof.
  destruct cs as [|c cs]; [exact (fun H => H)|]. intros [Hc Hcs].
  assert (Hf : Forall inner_character (filter p cs)).
  { apply Forall_forall. intros x Hx. apply filter_In in Hx as [Hx _].
    revert x Hx. now apply Forall_forall. }
  cbn [filter]. destruct (p c); [now split | now apply inner_characters].
Qed.

Lemma characters_prefix (a b : list string) :
  characters (a ++ b) -> characters a.
Proof.
  destruct a as [|c a]; [exact (fun _ => I)|]. intros [Hc Hcs].
  split; [exact Hc|]. now apply Forall_app in Hcs as [Ha _].
Qed.

Lemma dropwhile_suffix {A} (p : A -> bool) (l : list A) :
  exists d, l = (d ++ dropwhile p l)%list.
Proof.
  induction l as [|x l [d IH]]; [exists []; reflexivity|].
  cbn [dropwhile]. destruct (p x).
  - exists (x :: d). cbn [app]. now rewrite <- IH.
  - exists []. reflexivity.
Qed.

Lemma rstripped_prefix {A} (p : A -> bool) (l : list A) :
  exists d, l = (rev (dropwhile p (rev l)) ++ d)%list.
Proof.
  destruct (dropwhile_suffix p (rev l)) as [d Hd].
  exists (rev d). rewrite <- rev_app_distr, <- Hd. now rewrite rev_involutive.
Qed.

(** The characters of [safe_query]: those of the query that pass the
    test, without the white space at their end, cut after thirty. *)
Lemma safe_query_chars (pf : Platform) (query : string) :
  chars (safe_query pf query)
  = firstn 30
      (rev (dropwhile (isspace pf)
         (rev (filter
                 (fun c => isalnum pf c || existsb (String.eqb c) [" "; "-"; "_"])
                 (chars query))))).
Proof.
  unfold safe_query, slice_to, rstrip.
  set (F := filter _ (chars query)).
  assert (HF : characters F) by (apply characters_filter, chars_characters).
  rewrite (chars_text_of F HF).
  set (R := rev (dropwhile (isspace pf) (rev F))).
  assert (HR : characters R).
  { destruct (rstripped_prefix (isspace pf) F) as [d Hd].
    fold R in Hd. rewrite Hd in HF. now apply characters_prefix in HF. }
  rewrite (chars_text_of R HR).
  apply chars_text_of. apply (characters_prefix _ (skipn 30 R)).
  now rewrite firstn_skipn.
Qed.

(** ** The name of a report *)

Lemma safe_query_passed (pf : Platform) (query : string) :
  Forall (allowed pf) (chars (safe_query pf query)).
Proof.
  rewrite safe_query_chars.
  apply Forall_forall. intros c Hc. apply in_firstn in Hc.
  destruct (rstripped_prefix (isspace pf)
              (filter (fun c => isalnum pf c || existsb (String.eqb c) [" "; "-"; "_"])
                 (chars query))) as [d Hd].
  assert (Hin : In c (filter
                        (fun c => isalnum pf c || existsb (String.eqb c) [" "; "-"; "_"])
                        (chars query)))
    by (rewrite Hd; apply in_or_app; now left).
  apply filter_In in Hin as [_ Hok]. unfold allowed.
  apply orb_true_iff in Hok as [Hal | Hlit]; [now left | right].
  cbn [existsb] in Hlit.
  repeat (apply orb_true_iff in Hlit as [Hlit | Hlit]);
    try (apply String.eqb_eq in Hlit; tauto).
  discriminate.
Qed.

(** X12.  The part of a file name that [save_result_to_file] makes from
    a query has at most thirty characters, and each of them is
    alphanumeric, a blank, a hyphen or an underscore. *)
Theorem safe_query_allowed (pf : Platform) (query : string) :
  Forall (allowed pf) (chars (safe_query pf query)) /\
  (List.length (chars (safe_query pf query)) <= 30)%nat.
Proof.
  split; [apply safe_query_passed|].
  rewrite safe_query_chars. apply firstn_le_length.
Qed.

Lemma contains_char_app (x : ascii) (a b : string) :
  contains (String x "") (a ++ b)
  = contains (String x "") a || contains (String x "") b.
Proof.
  induction a as [|y a IH].
  - cbn [String.append]. destruct b; reflexivity.
  - cbn [String.append contains startswith]. rewrite IH.
    now rewrite !andb_true_r, orb_assoc.
Qed.

Lemma contains_char_cons (x y : ascii) (s : string) :
  contains (String x "") (String y s)
  = Ascii.eqb y x || contains (String x "") s.
Proof. cbn [contains startswith]. now rewrite andb_true_r. Qed.

Lemma uint_string_no_slash (d : Decimal.uint) :
  contains "/" (NilEmpty.string_of_uint d) = false.
Proof.
  induction d; cbn [NilEmpty.string_of_uint]; [reflexivity | ..];
    rewrite contains_char_cons, IHd; reflexivity.
Qed.

Lemma str_of_int_no_slash (n : Z) : contains "/" (str_of_int n) = false.
Proof.
  unfold str_of_int, NilZero.string_of_int, NilZero.string_of_uint.
  destruct (Z.to_int n) as [d|d].
  - destruct d; try reflexivity; apply uint_string_no_slash.
  - rewrite contains_char_cons. cbn [orb Ascii.eqb].
    destruct d; try reflexivity; apply uint_string_no_slash.
Qed.

Lemma two_digits_no_slash (n : Z) : contains "/" (two_digits n) = false.
Proof.
  unfold two_digits. destruct (n <? 10).
  - rewrite (contains_char_app "/" "0" _), str_of_int_no_slash. reflexivity.
  - apply str_of_int_no_slash.
Qed.

Lemma text_of_no_slash (cs : list string) :
  Forall (fun c => contains "/" c = false) cs ->
  contains "/" (text_of cs) = false.
Proof.
  induction 1 as [|c cs Hc Hcs IH]; [reflexivity|].
  cbn [text_of]. now rewrite contains_char_app, Hc, IH.
Qed.

(** X13.  Where no alphanumeric character is written with the byte of
    the slash, the name of a report contains no slash, whatever the query:
    a query cannot place the report outside the report directory by
    naming a path. *)
Theorem report_name_no_slash (pf : Platform) (env : Env) (query : string) :
  (forall c, isalnum pf c = true -> contains "/" c = false) ->
  contains "/" (report_name pf env query) = false.
Proof.
  intros Halnum. unfold report_name, strftime_HMS.
  assert (Hsafe : contains "/" (safe_query pf query) = false).
  { rewrite <- (text_of_chars (safe_query pf query)).
    apply text_of_no_slash.
    pose proof (safe_query_passed pf query) as Hall.
    apply Forall_forall. intros c Hc.
    apply (proj1 (Forall_forall _ _) Hall) in Hc.
    destruct Hc as [Hc | [-> | [-> | ->]]]; [now apply Halnum | reflexivity..]. }
  rewrite !contains_char_app, !two_digits_no_slash, Hsafe. reflexivity.
Qed.

Lemma report_name_no_slash_witness :
  (forall c, isalnum ascii_platform c = true -> contains "/" c = false) /\
  contains "/" (report_name ascii_platform (answering "") "../../etc/passwd") = false.
Proof.
  assert (Halnum : forall c, isalnum ascii_platform c = true -> contains "/" c = false).
  { intros [|b [|b' t]]; cbn [isalnum ascii_platform ascii_isalnum];
      try discriminate.
    destruct b as [[] [] [] [] [] [] [] []]; vm_compute; congruence. }
  split; [exact Halnum|].
  exact (report_name_no_slash ascii_platform (answering "") "../../etc/passwd" Halnum).
Defined.

Example report_name_traversal :
  report_name ascii_platform (answering "") "../../etc/passwd"
  = "report-09-05-30-etcpasswd.txt".
Proof. vm_compute. reflexivity. Qed.

(** The cut at thirty characters comes after the white space at the end
    was removed, so the cut itself can leave a blank at the end. *)
Example safe_query_cut_after_strip :
  safe_query ascii_platform "aaaaaaaaaaaaaaaaaaaaaaaaaaaaa bbbb"
  = "aaaaaaaaaaaaaaaaaaaaaaaaaaaaa ".
Proof. vm_compute. reflexivity. Qed.

(** ** Saving a report *)

(** What [save_result_to_file] does in every case. *)
Lemma save_result_to_file_cases
    (pf : Platform) (env : Env) (content base_dir query : string)
    (tr : list event) :
  save_result_to_file pf env content base_dir query tr
  = match makedirs env (path_join pf base_dir "report") with
    | Raise _ => (Return None, app tr [MakeDirs (path_join pf base_dir "report")])
    | Return _ =>
        (Return
           match write_file env (report_path pf env base_dir query) content with
           | Raise _ => None
           | Return _ => Some (report_path pf env base_dir query)
           end,
         app tr [MakeDirs (path_join pf base_dir "report");
                 WriteFile (report_path pf env base_dir query) content])
    end.
Proof.
  unfold save_result_to_file, try_except, bind, perform, ret, append.
  fold (report_name pf env query). fold (report_path pf env base_dir query).
  destruct (makedirs env (path_join pf base_dir "report")) as [[]|e]; [|reflexivity].
  destruct (write_file env (report_path pf env base_dir query) content) as [[]|e];
    now rewrite <- app_assoc.
Qed.

(** X14.  [save_result_to_file] raises nothing.  When the report
    directory cannot be made it returns [None] without trying to write;
    when the write fails it returns [None]; otherwise it has written the
    content, unchanged, to the report path and returns that path. *)
Theorem save_result_to_file_outcome
    (pf : Platform) (env : Env) (content base_dir query : string)
    (tr : list event) :
  exists saved tr',
    save_result_to_file pf env content base_dir query tr = (Return saved, tr') /\
    match makedirs env (path_join pf base_dir "report"),
          write_file env (report_path pf env base_dir query) content with
    | Raise _, _ =>
        saved = None /\
        tr' = (tr ++ [MakeDirs (path_join pf base_dir "report")])%list
    | Return _, Raise _ =>
        saved = None /\
        tr' = (tr ++ [MakeDirs (path_join pf base_dir "report");
                      WriteFile (report_path pf env base_dir query) content])%list
    | Return _, Return _ =>
        saved = Some (report_path pf env base_dir query) /\
        tr' = (tr ++ [MakeDirs (path_join pf base_dir "report");
                      WriteFile (report_path pf env base_dir query) content])%list
    end.
Proof.
  rewrite save_result_to_file_cases.
  destruct (makedirs env (path_join pf base_dir "report")) as [[]|e].
  - destruct (write_file env (report_path pf env base_dir query) content) as [[]|e];
      do 2 eexists; (split; [reflexivity|]); split; reflexivity.
  - do 2 eexists. split; [reflexivity|]. split; reflexivity.
Qed.

(** ** Calling the tool *)

Lemma find_search_none (tools : list Tool) :
  Forall (fun t => name t <> "search") tools ->
  find (fun t => String.eqb (name t) "search") tools = None.
Proof.
  induction 1 as [|t tools Ht _ IH]; [reflexivity|].
  cbn [find]. apply String.eqb_neq in Ht. now rewrite Ht.
Qed.

Lemma find_search_some (tools : list Tool) (t : Tool) :
  In t tools -> name t = "search" ->
  exists t', find (fun t => String.eqb (name t) "search") tools = Some t'.
Proof.
  intros Hin Hname. induction tools as [|x tools IH]; [destruct Hin|].
  cbn [find]. destruct (String.eqb (name x) "search") eqn:Hx; [eauto|].
  destruct Hin as [-> | Hin]; [|now apply IH].
  apply String.eqb_neq in Hx. contradiction.
Qed.

(** What [call_search_tool] does in every case. *)
Lemma call_search_tool_cases (env : Env) (query : string) (tr : list event) :
  call_search_tool env query tr
  = match list_tools env with
    | Raise e =>
        (Return ("Ошибка при вызове инструмента 'search': " ++ exc_str e),
         app tr [ListTools])
    | Return tools =>
        match find (fun t => String.eqb (name t) "search") tools with
        | None =>
            (Return "Инструмент 'search' не найден на сервере.",
             app tr [ListTools])
        | Some _ =>
            match call_tool env "search" [("query", query)] with
            | Raise e =>
                (Return ("Ошибка при вызове инструмента 'search': " ++ exc_str e),
                 app tr [ListTools; CallTool "search" [("query", query)]])
            | Return (TextContent text :: _) =>
                (Return text,
                 app tr [ListTools; CallTool "search" [("query", query)]])
            | Return _ =>
                (Return "Пустой или неожиданный результат от инструмента 'search'.",
                 app tr [ListTools; CallTool "search" [("query", query)]])
            end
        end
    end.
Proof.
  unfold call_search_tool, try_except, bind, perform, ret, append.
  destruct (list_tools env) as [tools|e]; [|reflexivity].
  destruct (find _ tools); [|reflexivity].
  destruct (call_tool env "search" [("query", query)]) as [[|[text|] rest]|e];
    now rewrite <- app_assoc.
Qed.

(** X15.  [call_search_tool] raises nothing: every call returns a text.
    When the session raises, on listing the tools or on calling the tool,
    the text is the failure message with the text of the exception, and it
    begins with the marker [Ошибка] by which [handle_query] knows a
    failure. *)
Theorem call_search_tool_never_raises (env : Env) (query : string) (tr : list event) :
  exists text tr',
    call_search_tool env query tr = (Return text, tr') /\
    (forall e,
        list_tools env = Raise e \/
        (exists tools,
            list_tools env = Return tools /\
            find (fun t => String.eqb (name t) "search") tools <> None /\
            call_tool env "search" [("query", query)] = Raise e) ->
        text = "Ошибка при вызове инструмента 'search': " ++ exc_str e /\
        startswith text "Ошибка" = true).
Proof.
  rewrite call_search_tool_cases.
  destruct (list_tools env) as [tools|e0].
  - destruct (find _ tools) as [t|] eqn:Hfind.
    + destruct (call_tool env "search" [("query", query)]) as [[|[text|] rest]|e0];
        do 2 eexists; (split; [reflexivity|]);
        intros e [He | (tools' & Ht & _ & He)]; try discriminate.
      injection He as <-. split; reflexivity.
    + do 2 eexists. split; [reflexivity|].
      intros e [He | (tools' & Ht & Hsome & _)]; [discriminate|].
      injection Ht as <-. contradiction.
  - do 2 eexists. split; [reflexivity|].
    intros e [He | (tools' & Ht & _)]; [|discriminate].
    injection He as <-. split; reflexivity.
Qed.

Lemma call_search_tool_never_raises_witness :
  list_tools (broken (OtherException "closed")) = Raise (OtherException "closed") /\
  exists tr',
    call_search_tool (broken (OtherException "closed")) "rocq" []
    = (Return "Ошибка при вызове инструмента 'search': closed", tr').
Proof.
  split; [reflexivity|].
  destruct (call_search_tool_never_raises (broken (OtherException "closed")) "rocq" [])
    as (text & tr' & Hcall & Hfail).
  destruct (Hfail (OtherException "closed") (or_introl eq_refl)) as [Htext _].
  exists tr'. rewrite Hcall, Htext. reflexivity.
Defined.

(** X16.  When the session lists no tool named [search], the call
    returns the fixed message that the tool was not found, and the session
    is asked nothing more: no tool is called. *)
Theorem call_search_tool_missing
    (env : Env) (query : string) (tr : list event) (tools : list Tool) :
  list_tools env = Return tools ->
  Forall (fun t => name t <> "search") tools ->
  call_search_tool env query tr
  = (Return "Инструмент 'search' не найден на сервере.", (app tr [ListTools])).
Proof.
  intros Htools Hnone. rewrite call_search_tool_cases, Htools.
  now rewrite (find_search_none tools Hnone).
Qed.

Lemma call_search_tool_missing_witness :
  list_tools toolless = Return [mkTool "fetch"] /\
  Forall (fun t => name t <> "search") [mkTool "fetch"] /\
  call_search_tool toolless "rocq" []
  = (Return "Инструмент 'search' не найден на сервере.", [ListTools]).
Proof.
  assert (Hnone : Forall (fun t => name t <> "search") [mkTool "fetch"])
    by (repeat constructor; discriminate).
  split; [reflexivity|]. split; [exact Hnone|].
  exact (call_search_tool_missing toolless "rocq" [] [mkTool "fetch"] eq_refl Hnone).
Defined.

(** X17.  When the session lists a tool named [search], wherever in the
    list, the tool is called once, with the query as its argument [query],
    and the call returns the text of the first item of the answer when
    that item is a text; for an empty answer, or one whose first item is
    not a text, it returns the fixed message for an unexpected result. *)
Theorem call_search_tool_passes_text
    (env : Env) (query : string) (tr : list event)
    (tools : list Tool) (t : Tool) (content : list Content) :
  list_tools env = Return tools ->
  In t tools -> name t = "search" ->
  call_tool env "search" [("query", query)] = Return content ->
  call_search_tool env query tr
  = (Return
       match content with
       | TextContent text :: _ => text
       | _ => "Пустой или неожиданный результат от инструмента 'search'."
       end,
     (app tr [ListTools; CallTool "search" [("query", query)]])).
Proof.
  intros Htools Hin Hname Hcall.
  rewrite call_search_tool_cases, Htools.
  destruct (find_search_some tools t Hin Hname) as [t' ->].
  rewrite Hcall. destruct content as [|[text|] rest]; reflexivity.
Qed.

Lemma call_search_tool_passes_text_witness :
  list_tools (answering "Found 1 search results:")
  = Return [mkTool "fetch"; mkTool "search"] /\
  In (mkTool "search") [mkTool "fetch"; mkTool "search"] /\
  name (mkTool "search") = "search" /\
  call_tool (answering "Found 1 search results:") "search" [("query", "rocq")]
  = Return [TextContent "Found 1 search results:"] /\
  call_search_tool (answering "Found 1 search results:") "rocq" []
  = (Return "Found 1 search results:",
     [ListTools; CallTool "search" [("query", "rocq")]]).
Proof.
  assert (Hin : In (mkTool "search") [mkTool "fetch"; mkTool "search"])
    by (right; left; reflexivity).
  split; [reflexivity|]. split; [exact Hin|]. split; [reflexivity|].
  split; [reflexivity|].
  exact (call_search_tool_passes_text (answering "Found 1 search results:") "rocq" []
           [mkTool "fetch"; mkTool "search"] (mkTool "search")
           [TextContent "Found 1 search results:"] eq_refl Hin eq_refl eq_refl).
Defined.

(** ** Handling a message *)

Lemma replies_app (a b : list event) : replies (a ++ b) = (replies a ++ replies b)%list.
Proof. unfold replies. apply flat_map_app. Qed.

Lemma file_events_app (a b : list event) :
  file_events (a ++ b) = (file_events a ++ file_events b)%list.
Proof. unfold file_events. apply filter_app. Qed.

(** The call of the tool replies nothing and touches no file. *)
Lemma call_search_tool_quiet (env : Env) (query : string) (tr : list event) :
  exists text added,
    call_search_tool env query tr = (Return text, app tr added) /\
    replies added = [] /\ file_events added = [].
Proof.
  rewrite call_search_tool_cases.
  destruct (list_tools env) as [tools|e]; [|eauto 6].
  destruct (find _ tools); [|eauto 6].
  destruct (call_tool env "search" [("query", query)]) as [[|[text|] rest]|e];
    eauto 6.
Qed.

(** Saving replies nothing. *)
Lemma save_result_to_file_quiet
    (pf : Platform) (env : Env) (content base_dir query : string)
    (tr : list event) :
  exists saved added,
    save_result_to_file pf env content base_dir query tr = (Return saved, app tr added) /\
    replies added = [].
Proof.
  rewrite save_result_to_file_cases.
  destruct (makedirs env _); eauto 6.
Qed.

(** [handle_query], step by step. *)
Lemma handle_query_cases (pf : Platform) (env : Env) (base_dir text : string)
    (tr : list event) :
  handle_query pf env base_dir text tr
  = if String.eqb (strip pf text) "" then
      (send env
           "Пожалуйста, введите непустой запрос.",
       app tr [ReplyText "Пожалуйста, введите непустой запрос."])
    else
      match call_search_tool env (strip pf text) tr with
      | (Raise e, tr1) => (Raise e, tr1)
      | (Return search_result, tr1) =>
          if negb (String.eqb search_result "")
             && negb (startswith search_result "Ошибка")
          then
            match save_result_to_file pf env search_result base_dir (strip pf text) tr1 with
            | (Raise e, tr2) => (Raise e, tr2)
            | (Return (Some (String c p)), tr2) =>
                (send env
                     ("Результат поиска:" ++ LF ++ search_result ++ LF ++ LF
                      ++ "Сохранено в: " ++ String c p),
                 app tr2
                   [ReplyText
                      ("Результат поиска:" ++ LF ++ search_result ++ LF ++ LF
                       ++ "Сохранено в: " ++ String c p)])
            | (Return _, tr2) =>
                (send env
                     "Ошибка при сохранении результата.",
                 app tr2 [ReplyText "Ошибка при сохранении результата."])
            end
          else
            (send env
                 ("Ошибка поиска: " ++ search_result),
             app tr1 [ReplyText ("Ошибка поиска: " ++ search_result)])
      end.
Proof.
  unfold handle_query. destruct (String.eqb (strip pf text) ""); [reflexivity|].
  unfold bind. destruct (call_search_tool env (strip pf text) tr) as [[result|e] tr1];
    [|reflexivity].
  destruct (negb (String.eqb result "") && negb (startswith result "Ошибка"));
    [|reflexivity].
  destruct (save_result_to_file pf env result base_dir (strip pf text) tr1)
    as [[[[|c p]|]|e] tr2]; reflexivity.
Qed.

(** X18.  [handle_query] answers every message with exactly one reply,
    which is the last thing it does: whatever it asks of the session and
    of the file system comes before.  It raises nothing of its own: its
    outcome is that of sending the reply, so that it raises when Telegram
    does, there being no handler around [reply_text]. *)
Theorem handle_query_one_reply (pf : Platform) (env : Env) (base_dir text : string)
    (tr : list event) :
  exists added reply,
    handle_query pf env base_dir text tr
    = (send env reply, app tr (app added [ReplyText reply])) /\
    replies added = [].
Proof.
  rewrite handle_query_cases.
  destruct (String.eqb (strip pf text) "").
  { exists [], "Пожалуйста, введите непустой запрос.". split; reflexivity. }
  destruct (call_search_tool_quiet env (strip pf text) tr)
    as (result & a1 & -> & Hr1 & _).
  destruct (negb (String.eqb result "") && negb (startswith result "Ошибка")).
  2:{ exists a1. eexists. split; [unfold append; now rewrite app_assoc | exact Hr1]. }
  destruct (save_result_to_file_quiet pf env result base_dir (strip pf text) (app tr a1))
    as (saved & a2 & -> & Hr2).
  assert (Hr : replies (a1 ++ a2) = []) by now rewrite replies_app, Hr1, Hr2.
  destruct saved as [[|c p]|]; exists (a1 ++ a2)%list; eexists;
    (split; [unfold append; now rewrite !app_assoc | exact Hr]).
Qed.

Lemma dropwhile_all {A} (p : A -> bool) (l : list A) :
  Forall (fun x => p x = true) l -> dropwhile p l = [].
Proof.
  induction 1 as [|x l Hx _ IH]; [reflexivity|].
  cbn [dropwhile]. now rewrite Hx.
Qed.

(** X19.  A message that consists of white space only, the empty
    message included, is answered with the request for a query, and
    nothing is asked of the session or of the file system. *)
Theorem handle_query_blank (pf : Platform) (env : Env) (base_dir text : string)
    (tr : list event) :
  Forall (fun c => isspace pf c = true) (chars text) ->
  handle_query pf env base_dir text tr
  = (send env
       "Пожалуйста, введите непустой запрос.",
   app tr [ReplyText "Пожалуйста, введите непустой запрос."]).
Proof.
  intros Hblank. rewrite handle_query_cases.
  unfold strip. rewrite (dropwhile_all _ _ Hblank). reflexivity.
Qed.

Lemma handle_query_blank_witness :
  Forall (fun c => isspace ascii_platform c = true)
    (chars (String " " (String (ascii_of_nat 9) LF))) /\
  handle_query ascii_platform (answering "") "/srv/bot"
    (String " " (String (ascii_of_nat 9) LF)) []
  = (Return tt, [ReplyText "Пожалуйста, введите непустой запрос."]).
Proof.
  assert (Hblank : Forall (fun c => isspace ascii_platform c = true)
                     (chars (String " " (String (ascii_of_nat 9) LF))))
    by (repeat constructor).
  split; [exact Hblank|].
  exact (handle_query_blank ascii_platform (answering "") "/srv/bot" _ [] Hblank).
Defined.

(** X20.  When the call of the tool returns the empty text or a text
    that begins with [Ошибка], as it does whenever the session raises,
    the reply reports a failed search with that text, and nothing is
    saved: no directory is made and no file written. *)
Theorem handle_query_failure_not_saved
    (pf : Platform) (env : Env) (base_dir text : string)
    (tr tr1 : list event) (result : string) :
  strip pf text <> "" ->
  call_search_tool env (strip pf text) tr = (Return result, tr1) ->
  result = "" \/ startswith result "Ошибка" = true ->
  handle_query pf env base_dir text tr
  = (send env ("Ошибка поиска: " ++ result), app tr1 [ReplyText ("Ошибка поиска: " ++ result)]) /\
  file_events (app tr1 [ReplyText ("Ошибка поиска: " ++ result)]) = file_events tr.
Proof.
  intros Hq Hcall Hfail. rewrite handle_query_cases.
  apply String.eqb_neq in Hq. rewrite Hq, Hcall.
  replace (negb (String.eqb result "") && negb (startswith result "Ошибка"))
    with false.
  2:{ destruct Hfail as [-> | ->]; [reflexivity|]. now rewrite andb_false_r. }
  split; [reflexivity|].
  destruct (call_search_tool_quiet env (strip pf text) tr)
    as (result' & a1 & Hcall' & _ & Hf1).
  rewrite Hcall in Hcall'. injection Hcall' as _ ->.
  rewrite !file_events_app, Hf1. cbn. now rewrite !app_nil_r.
Qed.

Lemma handle_query_failure_not_saved_witness :
  strip ascii_platform " rocq " <> "" /\
  call_search_tool (broken (OtherException "closed"))
    (strip ascii_platform " rocq ") []
  = (Return "Ошибка при вызове инструмента 'search': closed", [ListTools]) /\
  startswith "Ошибка при вызове инструмента 'search': closed" "Ошибка" = true /\
  handle_query ascii_platform (broken (OtherException "closed")) "/srv/bot" " rocq " []
  = (Return tt,
     [ListTools;
      ReplyText "Ошибка поиска: Ошибка при вызове инструмента 'search': closed"]).
Proof.
  assert (Hq : strip ascii_platform " rocq " <> "") by (vm_compute; discriminate).
  assert (Hcall : call_search_tool (broken (OtherException "closed"))
                    (strip ascii_platform " rocq ") []
                  = (Return "Ошибка при вызове инструмента 'search': closed",
                     [ListTools])) by (vm_compute; reflexivity).
  split; [exact Hq|]. split; [exact Hcall|]. split; [reflexivity|].
  exact (proj1 (handle_query_failure_not_saved ascii_platform
                  (broken (OtherException "closed")) "/srv/bot" " rocq " [] _ _
                  Hq Hcall (or_intror eq_refl))).
Defined.

(** What [handle_query] does with a text that counts as a result. *)
Lemma handle_query_result
    (pf : Platform) (env : Env) (base_dir text : string)
    (tr tr1 : list event) (result : string) :
  strip pf text <> "" ->
  call_search_tool env (strip pf text) tr = (Return result, tr1) ->
  result <> "" -> startswith result "Ошибка" = false ->
  handle_query pf env base_dir text tr
  = match save_result_to_file pf env result base_dir (strip pf text) tr1 with
    | (Raise e, tr2) => (Raise e, tr2)
    | (Return (Some (String c p)), tr2) =>
        (send env
             ("Результат поиска:" ++ LF ++ result ++ LF ++ LF
              ++ "Сохранено в: " ++ String c p),
         app tr2
           [ReplyText
              ("Результат поиска:" ++ LF ++ result ++ LF ++ LF
               ++ "Сохранено в: " ++ String c p)])
    | (Return _, tr2) =>
        (send env
             "Ошибка при сохранении результата.",
         app tr2 [ReplyText "Ошибка при сохранении результата."])
    end.
Proof.
  intros Hq Hcall Hne Hok. rewrite handle_query_cases.
  apply String.eqb_neq in Hq. apply String.eqb_neq in Hne.
  now rewrite Hq, Hcall, Hne, Hok.
Qed.

(** X21.  When a result was obtained but cannot be saved, because the
    report directory cannot be made or the file cannot be written, the
    only reply is that saving failed: the result itself is not shown. *)
Theorem handle_query_save_failure
    (pf : Platform) (env : Env) (base_dir text : string)
    (tr tr1 : list event) (result : string) (e : exc) :
  strip pf text <> "" ->
  call_search_tool env (strip pf text) tr = (Return result, tr1) ->
  result <> "" -> startswith result "Ошибка" = false ->
  makedirs env (path_join pf base_dir "report") = Raise e \/
  write_file env (report_path pf env base_dir (strip pf text)) result = Raise e ->
  exists added,
    handle_query pf env base_dir text tr
    = (send env
         "Ошибка при сохранении результата.",
     app tr1 (app added [ReplyText "Ошибка при сохранении результата."]))
    /\ replies added = [].
Proof.
  intros Hq Hcall Hne Hok Hfs.
  rewrite (handle_query_result _ _ _ _ _ _ _ Hq Hcall Hne Hok).
  rewrite save_result_to_file_cases.
  destruct Hfs as [Hmk | Hwr].
  - rewrite Hmk. eexists. split; [unfold append; now rewrite <- app_assoc | reflexivity].
  - destruct (makedirs env (path_join pf base_dir "report")).
    + rewrite Hwr.
      eexists. split; [unfold append; now rewrite <- app_assoc | reflexivity].
    + eexists. split; [unfold append; now rewrite <- app_assoc | reflexivity].
Qed.

Lemma handle_query_save_failure_witness :
  strip ascii_platform "rocq" <> "" /\
  call_search_tool (read_only "Found 1 search results:")
    (strip ascii_platform "rocq") []
  = (Return "Found 1 search results:",
     [ListTools; CallTool "search" [("query", "rocq")]]) /\
  "Found 1 search results:" <> "" /\
  startswith "Found 1 search results:" "Ошибка" = false /\
  write_file (read_only "Found 1 search results:")
    (report_path ascii_platform (read_only "Found 1 search results:") "/srv/bot"
       (strip ascii_platform "rocq"))
    "Found 1 search results:"
  = Raise (OtherException "Read-only file system") /\
  exists added,
    handle_query ascii_platform (read_only "Found 1 search results:") "/srv/bot" "rocq" []
    = (Return tt,
       app [ListTools; CallTool "search" [("query", "rocq")]]
         (app added [ReplyText "Ошибка при сохранении результата."]))
    /\ replies added = [].
Proof.
  assert (Hq : strip ascii_platform "rocq" <> "") by (vm_compute; discriminate).
  assert (Hcall : call_search_tool (read_only "Found 1 search results:")
                    (strip ascii_platform "rocq") []
                  = (Return "Found 1 search results:",
                     [ListTools; CallTool "search" [("query", "rocq")]]))
    by (vm_compute; reflexivity).
  assert (Hne : "Found 1 search results:" <> "") by discriminate.
  split; [exact Hq|]. split; [exact Hcall|]. split; [exact Hne|].
  split; [reflexivity|]. split; [reflexivity|].
  exact (handle_query_save_failure ascii_platform (read_only "Found 1 search results:")
           "/srv/bot" "rocq" [] _ _ (OtherException "Read-only file system")
           Hq Hcall Hne eq_refl (or_intror eq_refl)).
Defined.

(** What [handle_query] does when the result is saved. *)
Lemma handle_query_saved
    (pf : Platform) (env : Env) (base_dir text : string)
    (tr tr1 : list event) (result : string) :
  strip pf text <> "" ->
  call_search_tool env (strip pf text) tr = (Return result, tr1) ->
  result <> "" -> startswith result "Ошибка" = false ->
  makedirs env (path_join pf base_dir "report") = Return tt ->
  write_file env (report_path pf env base_dir (strip pf text)) result = Return tt ->
  report_path pf env base_dir (strip pf text) <> "" ->
  handle_query pf env base_dir text tr
  = (send env
       ("Результат поиска:" ++ LF ++ result ++ LF ++ LF
        ++ "Сохранено в: "
        ++ report_path pf env base_dir (strip pf text)),
     app tr1
       [MakeDirs (path_join pf base_dir "report");
        WriteFile (report_path pf env base_dir (strip pf text)) result;
        ReplyText
          ("Результат поиска:" ++ LF ++ result ++ LF ++ LF
           ++ "Сохранено в: " ++ report_path pf env base_dir (strip pf text))]).
Proof.
  intros Hq Hcall Hne Hok Hmk Hwr Hpath.
  rewrite (handle_query_result _ _ _ _ _ _ _ Hq Hcall Hne Hok).
  rewrite save_result_to_file_cases, Hmk, Hwr.
  destruct (report_path pf env base_dir (strip pf text)) as [|c p]; [contradiction|].
  unfold append. now rewrite <- app_assoc.
Qed.

(** X22.  When the session has no tool [search], the message that says
    so does not begin with [Ошибка], and the bot treats it as the result
    of the search: it saves the message as a report and replies with it
    under the heading of a result. *)
Theorem handle_query_missing_tool_saved
    (pf : Platform) (env : Env) (base_dir text : string)
    (tr : list event) (tools : list Tool) :
  strip pf text <> "" ->
  list_tools env = Return tools ->
  Forall (fun t => name t <> "search") tools ->
  makedirs env (path_join pf base_dir "report") = Return tt ->
  write_file env (report_path pf env base_dir (strip pf text))
    "Инструмент 'search' не найден на сервере." = Return tt ->
  report_path pf env base_dir (strip pf text) <> "" ->
  handle_query pf env base_dir text tr
  = (send env
       ("Результат поиска:" ++ LF
        ++ "Инструмент 'search' не найден на сервере." ++ LF ++ LF
        ++ "Сохранено в: "
        ++ report_path pf env base_dir (strip pf text)),
     app tr
       [ListTools;
        MakeDirs (path_join pf base_dir "report");
        WriteFile (report_path pf env base_dir (strip pf text))
          "Инструмент 'search' не найден на сервере.";
        ReplyText
          ("Результат поиска:" ++ LF
           ++ "Инструмент 'search' не найден на сервере." ++ LF ++ LF
           ++ "Сохранено в: " ++ report_path pf env base_dir (strip pf text))]).
Proof.
  intros Hq Htools Hnone Hmk Hwr Hpath.
  assert (Hcall : call_search_tool env (strip pf text) tr
                  = (Return "Инструмент 'search' не найден на сервере.",
                     app tr [ListTools])).
  { rewrite call_search_tool_cases, Htools.
    now rewrite (find_search_none tools Hnone). }
  rewrite (handle_query_saved _ _ _ _ _ _ _ Hq Hcall); try assumption;
    try reflexivity; try discriminate.
  now rewrite <- app_assoc.
Qed.

Lemma handle_query_missing_tool_saved_witness :
  strip ascii_platform "rocq" <> "" /\
  list_tools toolless = Return [mkTool "fetch"] /\
  Forall (fun t => name t <> "search") [mkTool "fetch"] /\
  makedirs toolless (path_join ascii_platform "/srv/bot" "report") = Return tt /\
  write_file toolless
    (report_path ascii_platform toolless "/srv/bot" (strip ascii_platform "rocq"))
    "Инструмент 'search' не найден на сервере." = Return tt /\
  report_path ascii_platform toolless "/srv/bot" (strip ascii_platform "rocq") <> "" /\
  handle_query ascii_platform toolless "/srv/bot" "rocq" []
  = (Return tt,
     [ListTools;
      MakeDirs "/srv/bot/report";
      WriteFile "/srv/bot/report/report-09-05-30-rocq.txt"
        "Инструмент 'search' не найден на сервере.";
      ReplyText
        ("Результат поиска:" ++ LF
         ++ "Инструмент 'search' не найден на сервере." ++ LF ++ LF
         ++ "Сохранено в: /srv/bot/report/report-09-05-30-rocq.txt")]).
Proof.
  assert (Hq : strip ascii_platform "rocq" <> "") by (vm_compute; discriminate).
  assert (Hnone : Forall (fun t => name t <> "search") [mkTool "fetch"])
    by (repeat constructor; discriminate).
  assert (Hpath : report_path ascii_platform toolless "/srv/bot"
                    (strip ascii_platform "rocq") <> "")
    by (vm_compute; discriminate).
  split; [exact Hq|]. split; [reflexivity|]. split; [exact Hnone|].
  split; [reflexivity|]. split; [reflexivity|]. split; [exact Hpath|].
  exact (handle_query_missing_tool_saved ascii_platform toolless "/srv/bot" "rocq" []
           [mkTool "fetch"] Hq eq_refl Hnone eq_refl eq_refl Hpath).
Defined.

(** The report of the server is never empty and never begins with the
    marker of a failure. *)
Lemma report_counts_as_result (results : list SearchResult) :
  format_results_for_llm results <> "" /\
  startswith (format_results_for_llm results) "Ошибка" = false.
Proof.
  destruct results as [|r rs]; [split; [discriminate | reflexivity]|].
  unfold format_results_for_llm.
  rewrite output_items. unfold append at 1. cbn [app].
  rewrite join_items.
  split; [discriminate | reflexivity].
Qed.

(** X23.  Whatever list the search of the server returned, the bot takes
    the report made of it for a result: the report of an empty list, the
    advisory that nothing was found, is saved to a file and sent under
    the heading of a result like any other.  The file holds the report
    unchanged, and the tool was called with the stripped message. *)
Theorem handle_query_report_saved
    (pf : Platform) (env : Env) (base_dir text : string) (tr : list event)
    (tools : list Tool) (t : Tool) (results : list SearchResult)
    (rest : list Content) :
  strip pf text <> "" ->
  list_tools env = Return tools ->
  In t tools -> name t = "search" ->
  call_tool env "search" [("query", strip pf text)]
  = Return (TextContent (format_results_for_llm results) :: rest) ->
  makedirs env (path_join pf base_dir "report") = Return tt ->
  write_file env (report_path pf env base_dir (strip pf text))
    (format_results_for_llm results) = Return tt ->
  report_path pf env base_dir (strip pf text) <> "" ->
  handle_query pf env base_dir text tr
  = (send env
       ("Результат поиска:" ++ LF ++ format_results_for_llm results
        ++ LF ++ LF ++ "Сохранено в: "
        ++ report_path pf env base_dir (strip pf text)),
     app tr
       [ListTools;
        CallTool "search" [("query", strip pf text)];
        MakeDirs (path_join pf base_dir "report");
        WriteFile (report_path pf env base_dir (strip pf text))
          (format_results_for_llm results);
        ReplyText
          ("Результат поиска:" ++ LF ++ format_results_for_llm results ++ LF ++ LF
           ++ "Сохранено в: " ++ report_path pf env base_dir (strip pf text))]).
Proof.
  intros Hq Htools Hin Hname Hcall Hmk Hwr Hpath.
  assert (Hc : call_search_tool env (strip pf text) tr
               = (Return (format_results_for_llm results),
                  app tr [ListTools; CallTool "search" [("query", strip pf text)]])).
  { rewrite call_search_tool_cases, Htools.
    destruct (find_search_some tools t Hin Hname) as [t' ->].
    now rewrite Hcall. }
  destruct (report_counts_as_result results) as [Hne Hok].
  rewrite (handle_query_saved _ _ _ _ _ _ _ Hq Hc Hne Hok Hmk Hwr Hpath).
  now rewrite <- app_assoc.
Qed.

Lemma handle_query_report_saved_witness :
  strip ascii_platform " rocq " <> "" /\
  list_tools (answering (format_results_for_llm []))
  = Return [mkTool "fetch"; mkTool "search"] /\
  In (mkTool "search") [mkTool "fetch"; mkTool "search"] /\
  name (mkTool "search") = "search" /\
  call_tool (answering (format_results_for_llm [])) "search"
    [("query", strip ascii_platform " rocq ")]
  = Return [TextContent (format_results_for_llm [])] /\
  makedirs (answering (format_results_for_llm []))
    (path_join ascii_platform "/srv/bot" "report") = Return tt /\
  write_file (answering (format_results_for_llm []))
    (report_path ascii_platform (answering (format_results_for_llm [])) "/srv/bot"
       (strip ascii_platform " rocq "))
    (format_results_for_llm []) = Return tt /\
  report_path ascii_platform (answering (format_results_for_llm [])) "/srv/bot"
    (strip ascii_platform " rocq ") <> "" /\
  file_events
    (snd (handle_query ascii_platform (answering (format_results_for_llm []))
            "/srv/bot" " rocq " []))
  = [MakeDirs "/srv/bot/report";
     WriteFile "/srv/bot/report/report-09-05-30-rocq.txt" (format_results_for_llm [])].
Proof.
  assert (Hq : strip ascii_platform " rocq " <> "") by (vm_compute; discriminate).
  assert (Hin : In (mkTool "search") [mkTool "fetch"; mkTool "search"])
    by (right; left; reflexivity).
  assert (Hpath : report_path ascii_platform (answering (format_results_for_llm []))
                    "/srv/bot" (strip ascii_platform " rocq ") <> "")
    by (vm_compute; discriminate).
  split; [exact Hq|]. split; [reflexivity|]. split; [exact Hin|].
  split; [reflexivity|]. split; [reflexivity|]. split; [reflexivity|].
  split; [reflexivity|]. split; [exact Hpath|].
  rewrite (handle_query_report_saved ascii_platform
             (answering (format_results_for_llm [])) "/srv/bot" " rocq " []
             [mkTool "fetch"; mkTool "search"] (mkTool "search") [] []
             Hq eq_refl Hin eq_refl eq_refl eq_refl eq_refl Hpath).
  vm_compute. reflexivity.
Defined.

(** When Telegram raises on the reply, [handle_query] raises that
    exception, after the report was saved. *)
Example handle_query_reply_raises :
  handle_query ascii_platform
    (unreachable "Found 1 search results:" (OtherException "network down"))
    "/srv/bot" "rocq" []
  = (Raise (OtherException "network down"),
     [ListTools; CallTool "search" [("query", "rocq")];
      MakeDirs "/srv/bot/report";
      WriteFile "/srv/bot/report/report-09-05-30-rocq.txt" "Found 1 search results:";
      ReplyText
        ("Результат поиска:" ++ LF ++ "Found 1 search results:" ++ LF ++ LF
         ++ "Сохранено в: /srv/bot/report/report-09-05-30-rocq.txt")]).
Proof. vm_compute. reflexivity. Qed.
